(** * Daily-amount decomposition of Superfluid stream periods

    A shallow embedding of [src/result-mapper.js]: the clipping of a stream
    period to a reporting window ([getDailyAmounts]) and the splitting of the
    clipped interval at UTC midnights ([calculateDailyAmounts] and its
    helpers), followed by the properties the specification states about them.

    Numbers are exact integers ([Z]): timestamps are whole seconds and the
    flow rate is a signed integer, as in the data model of the specification.
    The rounding of JavaScript doubles is outside this model. *)

From Equations Require Import Equations.
From Stdlib Require Import ZArith List Bool Lia Sorted.
From Stdlib Require String.
Import ListNotations.
Import String.StringSyntax.
Delimit Scope string_scope with string.
Bind Scope string_scope with String.string.

Local Open Scope Z_scope.

(** ** The part of [moment] the program uses *)

Module Moment.

(** A moment in UTC mode: every moment of the program is made by
    [moment.unix(..).utc()] or cloned from one, so the only state is the
    number of milliseconds since the epoch.  The program clones a moment
    before every [add], [subtract] and [startOf] (or re-binds the variable
    it mutates), so no mutation is observable through an alias and the
    operations are modelled as pure functions. *)
Record t : Set := mk { valueOf : Z }.

Definition MS_PER_SECOND : Z := 1000.
Definition MS_PER_DAY : Z := 86400000.

(** [moment.unix(s).utc()] *)
Definition of_unix (s : Z) : t := mk (s * MS_PER_SECOND).

(** [m.unix()]: [Math.floor(m.valueOf() / 1000)] *)
Definition unix (m : t) : Z := valueOf m / MS_PER_SECOND.

(** [m.clone()] *)
Definition clone (m : t) : t := m.

(** [m.add(n, 'days')] and [m.subtract(n, 'days')]; a UTC day has exactly
    86400 seconds. *)
Definition add_days (n : Z) (m : t) : t := mk (valueOf m + n * MS_PER_DAY).
Definition subtract_days (n : Z) (m : t) : t := mk (valueOf m - n * MS_PER_DAY).

(** [m.startOf('day')] in UTC mode: the time minus its non-negative
    remainder modulo one day. *)
Definition startOf_day (m : t) : t := mk (valueOf m - valueOf m mod MS_PER_DAY).

(** [a.isAfter(b)] and [a.isSame(b)] *)
Definition isAfter (a b : t) : bool := valueOf b <? valueOf a.
Definition isSame (a b : t) : bool := valueOf a =? valueOf b.

(** [a.diff(b, 'seconds')]: the difference in milliseconds divided by 1000
    and truncated towards zero. *)
Definition diff_seconds (a b : t) : Z := Z.quot (valueOf a - valueOf b) MS_PER_SECOND.

End Moment.

(** ** Records of the program *)

(** The fields of a stream period that [getDailyAmounts] reads.
    [stoppedAtTimestamp] is [None] for JavaScript's [null]. *)
Record StreamPeriod : Set := mkStreamPeriod {
  startedAtTimestamp : Z;
  stoppedAtTimestamp : option Z;
  flowRate : Z
}.

Record DailyAmount : Set := mkDailyAmount {
  startTime : Z;
  endTime : Z;
  quantityInToken : Z
}.

(** [l.at(-1)]: the last element of an array, [undefined] when it is empty. *)
Definition at_last {A : Type} (l : list A) : option A := hd_error (rev l).

(** The object returned by [calculateDailyAmountsForFullDaysBetween]. *)
Record FullDays : Set := mkFullDays {
  fullDayAmounts : list DailyAmount;
  lastEndTime : Moment.t
}.

(** ** The decomposition engine *)

Definition createDailyAmount (startTime endTime : Moment.t) (quantityInToken : Z) : DailyAmount :=
  mkDailyAmount (Moment.unix startTime) (Moment.unix endTime) quantityInToken.

Definition getFlowedTokenQuantityBetween (startTime endTime : Moment.t) (flowRate : Z) : Z :=
  Moment.diff_seconds endTime startTime * flowRate.

Definition calculateFirstDailyAmount (startMoment endMoment : Moment.t) (spansDays : bool)
    (flowRate : Z) : DailyAmount :=
  let firstEndTime :=
    if spansDays
    then Moment.startOf_day (Moment.add_days 1 (Moment.clone startMoment))
    else endMoment in
  let firstTokenQuantity := getFlowedTokenQuantityBetween startMoment firstEndTime flowRate in
  createDailyAmount startMoment firstEndTime firstTokenQuantity.

Definition calculateLastDailyAmount (lastStartTime endMoment : Moment.t) (flowRate : Z) : DailyAmount :=
  let quantityInToken := getFlowedTokenQuantityBetween lastStartTime endMoment flowRate in
  createDailyAmount lastStartTime endMoment quantityInToken.

(** The condition and the body of the [while] loop of
    [calculateDailyAmountsForFullDaysBetween].  The loop state is the pair of
    the variable [startOfNextFullDay] and the array [fullDayAmounts]. *)
Definition fullDaysCond (endMoment startOfNextFullDay : Moment.t) : bool :=
  Moment.isAfter endMoment startOfNextFullDay || Moment.isSame endMoment startOfNextFullDay.

Definition fullDaysAmount (startOfNextFullDay : Moment.t) (flowRate : Z) : DailyAmount :=
  let startTime :=
    Moment.startOf_day (Moment.subtract_days 1 (Moment.clone startOfNextFullDay)) in
  let endTime := Moment.clone startOfNextFullDay in
  let quantityInToken := getFlowedTokenQuantityBetween startTime endTime flowRate in
  createDailyAmount startTime endTime quantityInToken.

Definition fullDaysAdvance (startOfNextFullDay : Moment.t) : Moment.t :=
  Moment.startOf_day (Moment.add_days 1 startOfNextFullDay).

(** The number of day boundaries between the loop variable and the end
    moment; it decreases at every iteration. *)
Definition fullDaysMeasure (endMoment startOfNextFullDay : Moment.t) : nat :=
  Z.to_nat (Moment.valueOf endMoment / Moment.MS_PER_DAY
            - Moment.valueOf startOfNextFullDay / Moment.MS_PER_DAY + 1).

Definition inspect {A} (a : A) : {b : A | a = b} := exist _ a eq_refl.

Equations fullDaysLoop (endMoment : Moment.t) (flowRate : Z)
    (startOfNextFullDay : Moment.t) (fullDayAmounts : list DailyAmount) : list DailyAmount
    by wf (fullDaysMeasure endMoment startOfNextFullDay) lt :=
  fullDaysLoop endMoment flowRate next acc with inspect (fullDaysCond endMoment next) := {
    | exist _ true Hcond :=
        fullDaysLoop endMoment flowRate (fullDaysAdvance next)
                     (acc ++ [fullDaysAmount next flowRate]);
    | exist _ false _ := acc }.
Next Obligation.
  revert Hcond.
  unfold fullDaysCond, fullDaysMeasure, fullDaysAdvance, Moment.isAfter, Moment.isSame.
  destruct endMoment as [e], next as [n]; cbn [Moment.valueOf Moment.startOf_day Moment.add_days].
  intros H. apply orb_true_iff in H.
  assert (Hle : n <= e) by (destruct H as [H | H]; lia).
  unfold Moment.MS_PER_DAY in *.
  pose proof (Z.div_le_mono n e 86400000 ltac:(lia) Hle).
  replace ((n + 1 * 86400000 - (n + 1 * 86400000) mod 86400000) / 86400000)
    with (n / 86400000 + 1).
  - lia.
  - pose proof (Z.div_mod (n + 1 * 86400000) 86400000 ltac:(lia)) as Hdm.
    replace (n + 1 * 86400000 - (n + 1 * 86400000) mod 86400000)
      with (((n + 1 * 86400000) / 86400000) * 86400000) by lia.
    rewrite Z.div_mul by lia.
    rewrite Z.div_add by lia. reflexivity.
Qed.

Definition calculateDailyAmountsForFullDaysBetween (startMoment endMoment : Moment.t)
    (flowRate : Z) : FullDays :=
  let startOfNextFullDay := Moment.startOf_day (Moment.add_days 1 (Moment.clone startMoment)) in
  let fullDayAmounts := fullDaysLoop endMoment flowRate startOfNextFullDay [] in
  mkFullDays fullDayAmounts
    (match at_last fullDayAmounts with
     | Some lastAmount => Moment.of_unix (endTime lastAmount)
     | None => startMoment
     end).

Definition calculateDailyAmounts (startMoment endMoment : Moment.t) (flowRate : Z)
    : list DailyAmount :=
  let initialStartTime := startMoment in
  let nextDayStart := Moment.startOf_day (Moment.add_days 1 (Moment.clone startMoment)) in
  let spansDays := Moment.isAfter endMoment nextDayStart in
  let firstDailyAmount :=
    calculateFirstDailyAmount (Moment.clone initialStartTime) (Moment.clone endMoment)
                              spansDays flowRate in
  let dailyAmounts := [firstDailyAmount] in
  if negb spansDays then dailyAmounts
  else
    let fullDays :=
      calculateDailyAmountsForFullDaysBetween
        (Moment.of_unix (endTime firstDailyAmount)) (Moment.clone endMoment) flowRate in
    let nextStartTime := lastEndTime fullDays in
    let dailyAmounts := dailyAmounts ++ fullDayAmounts fullDays in
    if Moment.isSame nextStartTime endMoment then dailyAmounts
    else dailyAmounts ++ [calculateLastDailyAmount nextStartTime endMoment flowRate].

(** ** The period normalizer *)

(** JavaScript's truthiness and [ToNumber] on a value that is [null] or an
    integer. *)
Definition truthy (v : option Z) : bool :=
  match v with
  | Some n => negb (n =? 0)
  | None => false
  end.

Definition toNumber (v : option Z) : Z :=
  match v with
  | Some n => n
  | None => 0
  end.

(** The three constants [getDailyAmounts] computes first, each as a function
    of what it reads.  [isStreamTerminated] is [!!streamPeriod.stoppedAtTimestamp];
    [Number(..)] is the identity on the integers of this model. *)
Definition isStreamTerminated (streamPeriod : StreamPeriod) : bool :=
  truthy (stoppedAtTimestamp streamPeriod).

Definition dailyAmountStartTimestamp (streamPeriod : StreamPeriod) (startTimestamp : Z) : Z :=
  Z.max (startedAtTimestamp streamPeriod) startTimestamp.

Definition dailyAmountEndTimestamp (streamPeriod : StreamPeriod) (endTimestamp : Z) : Z :=
  if isStreamTerminated streamPeriod
  then Z.min endTimestamp (toNumber (stoppedAtTimestamp streamPeriod))
  else endTimestamp.

Definition getDailyAmounts (streamPeriod : StreamPeriod) (startTimestamp endTimestamp : Z)
    : list DailyAmount :=
  let startMoment := Moment.of_unix (dailyAmountStartTimestamp streamPeriod startTimestamp) in
  let endMoment := Moment.of_unix (dailyAmountEndTimestamp streamPeriod endTimestamp) in
  let dailyAmounts := calculateDailyAmounts startMoment endMoment (flowRate streamPeriod) in
  dailyAmounts.

(** ** The mapping of the answer of the subgraph *)

(** JavaScript values and objects, as far as the mapping looks at them. *)
Module Js.

#[warnings="-register-all"] Inductive value : Type :=
| VUndefined
| VNull
| VBool (b : bool)
| VNum (n : Z)
| VStr (s : String.string)
| VObj (fields : list (String.string * value))
| VArr (items : list value).

(** An object: its own properties in the order of their creation.  The keys
    of an object are distinct. *)
Definition object : Type := list (String.string * value).

Fixpoint lookup (k : String.string) (o : object) : option value :=
  match o with
  | [] => None
  | (k', v) :: rest => if String.eqb k k' then Some v else lookup k rest
  end.

(** [o.k] on an object: [undefined] when [o] has no property [k]. *)
Definition getField (o : object) (k : String.string) : value :=
  match lookup k o with
  | Some v => v
  | None => VUndefined
  end.

(** [{...o, k: v}]: the property keeps its place when [o] has it, and comes
    last otherwise. *)
Fixpoint setField (k : String.string) (v : value) (o : object) : object :=
  match o with
  | [] => [(k, v)]
  | (k', v') :: rest =>
      if String.eqb k k' then (k, v) :: rest else (k', v') :: setField k v rest
  end.

(** [const { k, ...rest } = o]: the properties of [o] but [k]. *)
Definition removeField (k : String.string) (o : object) : object :=
  filter (fun kv => negb (String.eqb k (fst kv))) o.

Definition nullish (v : value) : bool :=
  match v with
  | VUndefined | VNull => true
  | _ => false
  end.

Definition truthy (v : value) : bool :=
  match v with
  | VUndefined | VNull => false
  | VBool b => b
  | VNum n => negb (n =? 0)
  | VStr s => negb (String.eqb s ""%string)
  | VObj _ | VArr _ => true
  end.

(** The value of [v.k] when [v] is neither [null] nor [undefined], for the
    names the program reads ([id] and [transactionHash]), which no boolean,
    number, string or array has. *)
Definition memberOf (v : value) (k : String.string) : value :=
  match v with
  | VObj o => getField o k
  | _ => VUndefined
  end.

(** What a piece of the program does: it returns a value, it throws a
    [TypeError], or it reads a timestamp or a flow rate that is not an
    integer, which the integers of this model do not cover. *)
Inductive outcome (A : Type) : Type :=
| Returns (a : A)
| Throws
| Unmodelled.

Arguments Returns {A} a.
Arguments Throws {A}.
Arguments Unmodelled {A}.

Definition bind {A B : Type} (m : outcome A) (f : A -> outcome B) : outcome B :=
  match m with
  | Returns a => f a
  | Throws => Throws
  | Unmodelled => Unmodelled
  end.

(** [v.k]: a [TypeError] when [v] is [null] or [undefined]. *)
Definition member (v : value) (k : String.string) : outcome value :=
  if nullish v then Throws else Returns (memberOf v k).

(** [l.map(f)]: [f] on the elements of [l] from the first one on, up to the
    first one on which it does not return. *)
Fixpoint map {A B : Type} (f : A -> outcome B) (l : list A) : outcome (list B) :=
  match l with
  | [] => Returns []
  | x :: rest =>
      bind (f x) (fun y => bind (map f rest) (fun ys => Returns (y :: ys)))
  end.

End Js.

(** [streamPeriodsResponse.data] *)
Record StreamPeriodsData : Type := mkStreamPeriodsData {
  inflowingStreamPeriods : list Js.object;
  outflowingStreamPeriods : list Js.object;
  inflowingActiveStreamPeriods : list Js.object;
  outflowingActiveStreamPeriods : list Js.object
}.

Definition flattenSenderAndReceiver (streamPeriod : Js.object) : Js.outcome Js.object :=
  Js.bind (Js.member (Js.getField streamPeriod "sender"%string) "id"%string) (fun senderId =>
  Js.bind (Js.member (Js.getField streamPeriod "receiver"%string) "id"%string) (fun receiverId =>
  Js.Returns (Js.setField "receiver"%string receiverId (Js.setField "sender"%string senderId streamPeriod)))).

Definition flattenStartEndEventTransactions (streamPeriod : Js.object) : Js.outcome Js.object :=
  Js.bind (Js.member (Js.getField streamPeriod "startedAtEvent"%string) "transactionHash"%string)
    (fun streamOpeningTxHash =>
  Js.bind (if Js.truthy (Js.getField streamPeriod "stoppedAtEvent"%string)
           then Js.member (Js.getField streamPeriod "stoppedAtEvent"%string) "transactionHash"%string
           else Js.Returns Js.VNull)
    (fun streamClosingTxHash =>
  let streamPeriod :=
    Js.setField "streamClosingTxHash"%string streamClosingTxHash
      (Js.setField "streamOpeningTxHash"%string streamOpeningTxHash streamPeriod) in
  let streamPeriodWithoutEvents :=
    Js.removeField "stoppedAtEvent"%string (Js.removeField "startedAtEvent"%string streamPeriod) in
  Js.Returns streamPeriodWithoutEvents)).

(** The three properties [getDailyAmounts] reads, when they are integers;
    a [stoppedAtTimestamp] that is [undefined] is as falsy as [null]. *)
Definition streamPeriodOf (o : Js.object) : option StreamPeriod :=
  match Js.getField o "startedAtTimestamp"%string, Js.getField o "flowRate"%string with
  | Js.VNum started, Js.VNum rate =>
      match Js.getField o "stoppedAtTimestamp"%string with
      | Js.VNum stopped => Some (mkStreamPeriod started (Some stopped) rate)
      | Js.VNull | Js.VUndefined => Some (mkStreamPeriod started None rate)
      | _ => None
      end
  | _, _ => None
  end.

(** The object [createDailyAmount] returns. *)
Definition dailyAmountObject (a : DailyAmount) : Js.value :=
  Js.VObj [("startTime"%string, Js.VNum (startTime a));
           ("endTime"%string, Js.VNum (endTime a));
           ("quantityInToken"%string, Js.VNum (quantityInToken a))].

(** [{ ...s, dailyAmounts: getDailyAmounts(s, startTimestamp, endTimestamp) }] *)
Definition withDailyAmounts (startTimestamp endTimestamp : Z) (s : Js.object)
    : Js.outcome Js.object :=
  match streamPeriodOf s with
  | Some streamPeriod =>
      Js.Returns
        (Js.setField "dailyAmounts"%string
           (Js.VArr (List.map dailyAmountObject
                       (getDailyAmounts streamPeriod startTimestamp endTimestamp)))
           s)
  | None => Js.Unmodelled
  end.

Definition getPeriodsWithDailyAmounts (data : StreamPeriodsData)
    (startTimestamp endTimestamp : Z) : Js.outcome (list Js.object) :=
  let streamPeriods :=
    inflowingStreamPeriods data ++ outflowingStreamPeriods data
    ++ inflowingActiveStreamPeriods data ++ outflowingActiveStreamPeriods data in
  Js.bind (Js.map flattenSenderAndReceiver streamPeriods) (fun flat =>
  Js.bind (Js.map flattenStartEndEventTransactions flat) (fun flatter =>
  Js.map (withDailyAmounts startTimestamp endTimestamp) flatter)).

(** ** Definitions used to state the properties *)

(** The stream periods of an answer, in the order in which
    [getPeriodsWithDailyAmounts] maps them. *)
Definition streamPeriodsOf (data : StreamPeriodsData) : list Js.object :=
  inflowingStreamPeriods data ++ outflowingStreamPeriods data
  ++ inflowingActiveStreamPeriods data ++ outflowingActiveStreamPeriods data.

(** A stream period without a sender, a receiver or a started event. *)
Definition malformed (o : Js.object) : bool :=
  Js.nullish (Js.getField o "sender") || Js.nullish (Js.getField o "receiver")
  || Js.nullish (Js.getField o "startedAtEvent").

(** The properties that [getPeriodsWithDailyAmounts] sets or removes. *)
Definition mappedKeys : list String.string :=
  ["sender"; "receiver"; "streamOpeningTxHash"; "streamClosingTxHash";
   "startedAtEvent"; "stoppedAtEvent"; "dailyAmounts"]%string.

(** What an item of the result is for the stream period [o] it comes from. *)
Definition accountingItemOf (startTimestamp endTimestamp : Z) (o item : Js.object) : Prop :=
  Js.getField item "sender" = Js.memberOf (Js.getField o "sender") "id" /\
  Js.getField item "receiver" = Js.memberOf (Js.getField o "receiver") "id" /\
  Js.getField item "streamOpeningTxHash"
  = Js.memberOf (Js.getField o "startedAtEvent") "transactionHash" /\
  Js.getField item "streamClosingTxHash"
  = (if Js.truthy (Js.getField o "stoppedAtEvent")
     then Js.memberOf (Js.getField o "stoppedAtEvent") "transactionHash"
     else Js.VNull) /\
  Js.lookup "startedAtEvent" item = None /\
  Js.lookup "stoppedAtEvent" item = None /\
  (exists p, streamPeriodOf o = Some p /\
             Js.getField item "dailyAmounts"
             = Js.VArr (List.map dailyAmountObject
                          (getDailyAmounts p startTimestamp endTimestamp))) /\
  (forall k, ~ In k mappedKeys -> Js.lookup k item = Js.lookup k o).


Definition SECONDS_PER_DAY : Z := 86400.

(** The start of the UTC day that follows the second [s], in seconds. *)
Definition nextDayStartOf (s : Z) : Z := SECONDS_PER_DAY * (s / SECONDS_PER_DAY + 1).

(** The start of the UTC day that contains the second [e], in seconds. *)
Definition dayStartOf (e : Z) : Z := SECONDS_PER_DAY * (e / SECONDS_PER_DAY).

Definition sumQuantities (amounts : list DailyAmount) : Z :=
  fold_right (fun a total => quantityInToken a + total) 0 amounts.

(** [amounts[i].endTime == amounts[i+1].startTime] for every adjacent pair. *)
Definition contiguous (amounts : list DailyAmount) : Prop :=
  forall (i : nat) (a b : DailyAmount),
    nth_error amounts i = Some a -> nth_error amounts (S i) = Some b ->
    endTime a = startTime b.

(** The period and time span of each amount, without its quantity. *)
Definition shape (amounts : list DailyAmount) : list (Z * Z) :=
  map (fun a => (startTime a, endTime a)) amounts.

Definition isFullDay (r : Z) (a : DailyAmount) : Prop :=
  startTime a mod SECONDS_PER_DAY = 0 /\
  endTime a = startTime a + SECONDS_PER_DAY /\
  quantityInToken a = SECONDS_PER_DAY * r.

(** [n] consecutive full days, the first one being day number [d] since the
    epoch: the closed form of what the full-days loop appends. *)
Fixpoint fullDaySeq (n : nat) (d : Z) (r : Z) : list DailyAmount :=
  match n with
  | O => []
  | S n' =>
      mkDailyAmount (SECONDS_PER_DAY * d) (SECONDS_PER_DAY * (d + 1)) (SECONDS_PER_DAY * r)
        :: fullDaySeq n' (d + 1) r
  end.

(** The loop of [calculateDailyAmountsForFullDaysBetween] with a bound on
    the number of iterations: [None] when the bound is reached while the
    loop condition still holds. *)
Fixpoint fullDaysLoop_bounded (iterations : nat) (endMoment : Moment.t) (flowRate : Z)
    (startOfNextFullDay : Moment.t) (fullDayAmounts : list DailyAmount)
    : option (list DailyAmount) :=
  if fullDaysCond endMoment startOfNextFullDay then
    match iterations with
    | O => None
    | S n =>
        fullDaysLoop_bounded n endMoment flowRate (fullDaysAdvance startOfNextFullDay)
          (fullDayAmounts ++ [fullDaysAmount startOfNextFullDay flowRate])
    end
  else Some fullDayAmounts.

(** A chain of amounts that starts at the second [a]: each amount starts
    where the one before it ends. *)
Fixpoint chainFrom (a : Z) (amounts : list DailyAmount) : Prop :=
  match amounts with
  | [] => True
  | x :: rest => startTime x = a /\ chainFrom (endTime x) rest
  end.

(** The second at which a chain that starts at [a] ends. *)
Fixpoint chainEnd (a : Z) (amounts : list DailyAmount) : Z :=
  match amounts with
  | [] => a
  | x :: rest => chainEnd (endTime x) rest
  end.

(** An amount comes before another one in time. *)
Definition precedes (a b : DailyAmount) : Prop :=
  startTime a < startTime b /\ endTime a <= startTime b.

Definition orderedByTime (amounts : list DailyAmount) : Prop :=
  Forall (fun a => startTime a <= endTime a) amounts /\ StronglySorted precedes amounts.

(** A stream period as the subgraph answers it, still active, and an answer
    that holds it as an inflowing active period. *)
Definition sampleStreamPeriod : Js.object :=
  [("id"%string, Js.VStr "p1");
   ("flowRate"%string, Js.VNum 1);
   ("sender"%string, Js.VObj [("id"%string, Js.VStr "0xa")]);
   ("receiver"%string, Js.VObj [("id"%string, Js.VStr "0xb")]);
   ("startedAtTimestamp"%string, Js.VNum 1672574400);
   ("startedAtEvent"%string, Js.VObj [("transactionHash"%string, Js.VStr "0x1")]);
   ("stoppedAtTimestamp"%string, Js.VNull);
   ("stoppedAtEvent"%string, Js.VNull)].

Definition sampleData : StreamPeriodsData :=
  mkStreamPeriodsData [] [] [sampleStreamPeriod] [].

(** The items expected for [sampleData] over the window from 0 to
    1672725600. *)
Definition sampleItems : list Js.object :=
  [[("id"%string, Js.VStr "p1");
    ("flowRate"%string, Js.VNum 1);
    ("sender"%string, Js.VStr "0xa");
    ("receiver"%string, Js.VStr "0xb");
    ("startedAtTimestamp"%string, Js.VNum 1672574400);
    ("stoppedAtTimestamp"%string, Js.VNull);
    ("streamOpeningTxHash"%string, Js.VStr "0x1");
    ("streamClosingTxHash"%string, Js.VNull);
    ("dailyAmounts"%string,
     Js.VArr
       [dailyAmountObject (mkDailyAmount 1672574400 1672617600 43200);
        dailyAmountObject (mkDailyAmount 1672617600 1672704000 86400);
        dailyAmountObject (mkDailyAmount 1672704000 1672725600 21600)])]].

(** The amount [a] moved [k] seconds later. *)
Definition shiftAmount (k : Z) (a : DailyAmount) : DailyAmount :=
  mkDailyAmount (startTime a + k) (endTime a + k) (quantityInToken a).

(** The last partial day of a decomposition that ends at the second [e]:
    nothing when [e] is the start of a day. *)
Definition lastPartialDay (e r : Z) : list DailyAmount :=
  if dayStartOf e =? e then []
  else [mkDailyAmount (dayStartOf e) e ((e - dayStartOf e) * r)].

(** ** The scenario of the specification *)

Example scenarioA :
  calculateDailyAmounts (Moment.of_unix 1672574400) (Moment.of_unix 1672725600) 1
  = [ mkDailyAmount 1672574400 1672617600 43200;
      mkDailyAmount 1672617600 1672704000 86400;
      mkDailyAmount 1672704000 1672725600 21600 ].
Proof. vm_compute. reflexivity. Qed.


(** ** Arithmetic of moments *)

Lemma floor_day (n : Z) :
  n - n mod Moment.MS_PER_DAY = Moment.MS_PER_DAY * (n / Moment.MS_PER_DAY).
Proof.
  unfold Moment.MS_PER_DAY.
  pose proof (Z.div_mod n 86400000 ltac:(lia)). lia.
Qed.

Lemma startOf_next_day (m : Moment.t) :
  Moment.startOf_day (Moment.add_days 1 m) =
  Moment.mk (Moment.MS_PER_DAY * (Moment.valueOf m / Moment.MS_PER_DAY + 1)).
Proof.
  unfold Moment.startOf_day, Moment.add_days; cbn [Moment.valueOf].
  rewrite floor_day. f_equal. f_equal.
  rewrite Z.div_add by (unfold Moment.MS_PER_DAY; lia). reflexivity.
Qed.

Lemma div_day_aligned (d : Z) : Moment.MS_PER_DAY * d / Moment.MS_PER_DAY = d.
Proof. rewrite Z.mul_comm. apply Z.div_mul. unfold Moment.MS_PER_DAY; lia. Qed.

Lemma fullDaysAdvance_aligned (d : Z) :
  fullDaysAdvance (Moment.mk (Moment.MS_PER_DAY * d)) = Moment.mk (Moment.MS_PER_DAY * (d + 1)).
Proof.
  unfold fullDaysAdvance. rewrite startOf_next_day. cbn [Moment.valueOf].
  rewrite div_day_aligned. reflexivity.
Qed.

Lemma unix_aligned (d : Z) : Moment.unix (Moment.mk (Moment.MS_PER_DAY * d)) = SECONDS_PER_DAY * d.
Proof.
  unfold Moment.unix, Moment.MS_PER_DAY, Moment.MS_PER_SECOND, SECONDS_PER_DAY.
  cbn [Moment.valueOf].
  replace (86400000 * d) with (86400 * d * 1000) by lia.
  apply Z.div_mul. lia.
Qed.

Lemma unix_of_unix (s : Z) : Moment.unix (Moment.of_unix s) = s.
Proof.
  unfold Moment.unix, Moment.of_unix, Moment.MS_PER_SECOND. cbn [Moment.valueOf].
  apply Z.div_mul. lia.
Qed.

Lemma diff_seconds_of_unix (a b : Z) :
  Moment.diff_seconds (Moment.of_unix a) (Moment.of_unix b) = a - b.
Proof.
  unfold Moment.diff_seconds, Moment.of_unix, Moment.MS_PER_SECOND. cbn [Moment.valueOf].
  rewrite <- Z.mul_sub_distr_r. apply Z.quot_mul. lia.
Qed.

Lemma of_unix_aligned (d : Z) :
  Moment.of_unix (SECONDS_PER_DAY * d) = Moment.mk (Moment.MS_PER_DAY * d).
Proof.
  unfold Moment.of_unix, Moment.MS_PER_SECOND, Moment.MS_PER_DAY, SECONDS_PER_DAY.
  f_equal. lia.
Qed.

Lemma of_unix_div_day (s : Z) :
  Moment.valueOf (Moment.of_unix s) / Moment.MS_PER_DAY = s / SECONDS_PER_DAY.
Proof.
  unfold Moment.of_unix, Moment.MS_PER_SECOND, Moment.MS_PER_DAY, SECONDS_PER_DAY.
  cbn [Moment.valueOf].
  replace 86400000 with (86400 * 1000) by reflexivity.
  rewrite Z.div_mul_cancel_r by lia. reflexivity.
Qed.

Lemma fullDaysAmount_aligned (d r : Z) :
  fullDaysAmount (Moment.mk (Moment.MS_PER_DAY * d)) r =
  mkDailyAmount (SECONDS_PER_DAY * (d - 1)) (SECONDS_PER_DAY * d) (SECONDS_PER_DAY * r).
Proof.
  unfold fullDaysAmount, createDailyAmount, getFlowedTokenQuantityBetween, Moment.clone.
  assert (Hs : Moment.startOf_day (Moment.subtract_days 1 (Moment.mk (Moment.MS_PER_DAY * d))) =
               Moment.mk (Moment.MS_PER_DAY * (d - 1))).
  { unfold Moment.startOf_day, Moment.subtract_days. cbn [Moment.valueOf].
    rewrite floor_day. f_equal.
    replace (Moment.MS_PER_DAY * d - 1 * Moment.MS_PER_DAY)
      with (Moment.MS_PER_DAY * (d - 1)) by lia.
    rewrite div_day_aligned. reflexivity. }
  rewrite Hs, !unix_aligned. f_equal.
  rewrite <- !of_unix_aligned, diff_seconds_of_unix.
  unfold SECONDS_PER_DAY. lia.
Qed.

Lemma fullDaysCond_aligned (endMoment : Moment.t) (d : Z) :
  fullDaysCond endMoment (Moment.mk (Moment.MS_PER_DAY * d)) =
  (d <=? Moment.valueOf endMoment / Moment.MS_PER_DAY).
Proof.
  unfold fullDaysCond, Moment.isAfter, Moment.isSame. cbn [Moment.valueOf].
  destruct endMoment as [e]. cbn [Moment.valueOf].
  unfold Moment.MS_PER_DAY.
  pose proof (Z.div_mod e 86400000 ltac:(lia)).
  pose proof (Z.mod_pos_bound e 86400000 ltac:(lia)).
  destruct (Z.leb_spec d (e / 86400000)); apply orb_true_iff || apply orb_false_iff.
  - destruct (Z.eq_dec e (86400000 * d)); [right | left]; lia.
  - split; lia.
Qed.

(** ** The loop *)

Lemma fullDaysLoop_eq endMoment r next acc :
  fullDaysLoop endMoment r next acc =
  if fullDaysCond endMoment next
  then fullDaysLoop endMoment r (fullDaysAdvance next) (acc ++ [fullDaysAmount next r])
  else acc.
Proof.
  funelim (fullDaysLoop endMoment r next acc);
    match goal with H : fullDaysCond _ _ = _ |- _ => rewrite H end; reflexivity.
Qed.

Lemma fullDaysLoop_aligned (n : nat) : forall endMoment r d acc,
  n = Z.to_nat (Moment.valueOf endMoment / Moment.MS_PER_DAY - d + 1) ->
  fullDaysLoop endMoment r (Moment.mk (Moment.MS_PER_DAY * d)) acc =
  acc ++ fullDaySeq n (d - 1) r.
Proof.
  induction n as [| n IH]; intros endMoment r d acc Hn;
    rewrite fullDaysLoop_eq, fullDaysCond_aligned.
  - destruct (Z.leb_spec d (Moment.valueOf endMoment / Moment.MS_PER_DAY)); [lia |].
    cbn. rewrite app_nil_r. reflexivity.
  - destruct (Z.leb_spec d (Moment.valueOf endMoment / Moment.MS_PER_DAY)); [| lia].
    rewrite fullDaysAdvance_aligned, fullDaysAmount_aligned, IH by lia.
    rewrite <- app_assoc. cbn [fullDaySeq app].
    replace (d - 1 + 1) with d by lia. replace (d + 1 - 1) with d by lia. reflexivity.
Qed.

Lemma at_last_app_one {A : Type} (l : list A) (x : A) : at_last (l ++ [x]) = Some x.
Proof. unfold at_last. rewrite rev_app_distr. reflexivity. Qed.

Lemma fullDaySeq_snoc (n : nat) : forall d r,
  fullDaySeq (S n) d r =
  fullDaySeq n d r ++
  [mkDailyAmount (SECONDS_PER_DAY * (d + Z.of_nat n)) (SECONDS_PER_DAY * (d + Z.of_nat n + 1))
     (SECONDS_PER_DAY * r)].
Proof.
  induction n as [| n IH]; intros d r.
  - cbn. rewrite Z.add_0_r. reflexivity.
  - change (fullDaySeq (S (S n)) d r)
      with (mkDailyAmount (SECONDS_PER_DAY * d) (SECONDS_PER_DAY * (d + 1)) (SECONDS_PER_DAY * r)
              :: fullDaySeq (S n) (d + 1) r).
    rewrite IH. cbn [fullDaySeq app]. do 4 f_equal; lia.
Qed.

Lemma fullDaySeq_length (n : nat) : forall d r, length (fullDaySeq n d r) = n.
Proof. induction n as [| n IH]; intros d r; cbn; [| rewrite IH]; reflexivity. Qed.

Lemma fullDaysBetween_amounts (startMoment endMoment : Moment.t) (r : Z) :
  fullDayAmounts (calculateDailyAmountsForFullDaysBetween startMoment endMoment r) =
  fullDaySeq
    (Z.to_nat (Moment.valueOf endMoment / Moment.MS_PER_DAY
               - Moment.valueOf startMoment / Moment.MS_PER_DAY))
    (Moment.valueOf startMoment / Moment.MS_PER_DAY) r.
Proof.
  unfold calculateDailyAmountsForFullDaysBetween, Moment.clone. cbn [fullDayAmounts].
  rewrite startOf_next_day.
  rewrite (fullDaysLoop_aligned
             (Z.to_nat (Moment.valueOf endMoment / Moment.MS_PER_DAY
                        - Moment.valueOf startMoment / Moment.MS_PER_DAY))) by (f_equal; lia).
  cbn [app]. f_equal. lia.
Qed.

Lemma fullDaysBetween_lastEndTime (startMoment endMoment : Moment.t) (r : Z) :
  lastEndTime (calculateDailyAmountsForFullDaysBetween startMoment endMoment r) =
  if Moment.valueOf startMoment / Moment.MS_PER_DAY <? Moment.valueOf endMoment / Moment.MS_PER_DAY
  then Moment.mk (Moment.MS_PER_DAY * (Moment.valueOf endMoment / Moment.MS_PER_DAY))
  else startMoment.
Proof.
  pose proof (fullDaysBetween_amounts startMoment endMoment r) as Ha.
  unfold calculateDailyAmountsForFullDaysBetween in *. cbn [fullDayAmounts lastEndTime] in *.
  rewrite Ha. clear Ha.
  set (ds := Moment.valueOf startMoment / Moment.MS_PER_DAY).
  set (de := Moment.valueOf endMoment / Moment.MS_PER_DAY).
  destruct (Z.ltb_spec ds de) as [Hlt | Hge].
  - destruct (Z.to_nat (de - ds)) as [| n] eqn:Hn; [lia |].
    rewrite fullDaySeq_snoc, at_last_app_one. cbn [endTime].
    rewrite of_unix_aligned. do 2 f_equal. lia.
  - replace (Z.to_nat (de - ds)) with O by lia. reflexivity.
Qed.

Lemma isAfter_of_unix (a b : Z) : Moment.isAfter (Moment.of_unix a) (Moment.of_unix b) = (b <? a).
Proof.
  unfold Moment.isAfter, Moment.of_unix, Moment.MS_PER_SECOND. cbn [Moment.valueOf].
  destruct (Z.ltb_spec b a), (Z.ltb_spec (b * 1000) (a * 1000)); try reflexivity; lia.
Qed.

Lemma isSame_of_unix (a b : Z) : Moment.isSame (Moment.of_unix a) (Moment.of_unix b) = (a =? b).
Proof.
  unfold Moment.isSame, Moment.of_unix, Moment.MS_PER_SECOND. cbn [Moment.valueOf].
  destruct (Z.eqb_spec a b), (Z.eqb_spec (a * 1000) (b * 1000)); try reflexivity; lia.
Qed.

Lemma createDailyAmount_of_unix (a b q : Z) :
  createDailyAmount (Moment.of_unix a) (Moment.of_unix b) q = mkDailyAmount a b q.
Proof. unfold createDailyAmount. rewrite !unix_of_unix. reflexivity. Qed.

Lemma startOf_next_day_of_unix (s : Z) :
  Moment.startOf_day (Moment.add_days 1 (Moment.of_unix s)) = Moment.of_unix (nextDayStartOf s).
Proof.
  rewrite startOf_next_day, of_unix_div_day. unfold nextDayStartOf.
  rewrite of_unix_aligned. reflexivity.
Qed.

(** The closed form of the decomposition of [start, end) at whole seconds. *)
Lemma calculateDailyAmounts_of_unix (s e r : Z) :
  calculateDailyAmounts (Moment.of_unix s) (Moment.of_unix e) r =
  if nextDayStartOf s <? e
  then mkDailyAmount s (nextDayStartOf s) ((nextDayStartOf s - s) * r)
         :: fullDaySeq (Z.to_nat (e / SECONDS_PER_DAY - s / SECONDS_PER_DAY - 1))
                       (s / SECONDS_PER_DAY + 1) r
         ++ (if dayStartOf e =? e then []
             else [mkDailyAmount (dayStartOf e) e ((e - dayStartOf e) * r)])
  else [mkDailyAmount s e ((e - s) * r)].
Proof.
  unfold calculateDailyAmounts, Moment.clone.
  rewrite startOf_next_day_of_unix, isAfter_of_unix.
  destruct (Z.ltb_spec (nextDayStartOf s) e) as [Hspans | Hnot]; cbn [negb].
  - assert (Hfirst : calculateFirstDailyAmount (Moment.of_unix s) (Moment.of_unix e) true r =
                     mkDailyAmount s (nextDayStartOf s) ((nextDayStartOf s - s) * r)).
    { unfold calculateFirstDailyAmount, getFlowedTokenQuantityBetween, Moment.clone.
      rewrite startOf_next_day_of_unix, createDailyAmount_of_unix, diff_seconds_of_unix.
      reflexivity. }
    rewrite Hfirst. cbn [endTime].
    rewrite fullDaysBetween_amounts, fullDaysBetween_lastEndTime, !of_unix_div_day.
    assert (Hd : nextDayStartOf s / SECONDS_PER_DAY = s / SECONDS_PER_DAY + 1).
    { unfold nextDayStartOf. rewrite Z.mul_comm. apply Z.div_mul. unfold SECONDS_PER_DAY; lia. }
    rewrite Hd.
    assert (Hle : s / SECONDS_PER_DAY + 1 <= e / SECONDS_PER_DAY).
    { rewrite <- Hd. apply Z.div_le_mono; [unfold SECONDS_PER_DAY |]; lia. }
    assert (Hlast : (if s / SECONDS_PER_DAY + 1 <? e / SECONDS_PER_DAY
                     then Moment.mk (Moment.MS_PER_DAY * (e / SECONDS_PER_DAY))
                     else Moment.of_unix (nextDayStartOf s)) = Moment.of_unix (dayStartOf e)).
    { unfold dayStartOf. rewrite of_unix_aligned.
      destruct (Z.ltb_spec (s / SECONDS_PER_DAY + 1) (e / SECONDS_PER_DAY)); [reflexivity |].
      unfold nextDayStartOf. rewrite of_unix_aligned. do 2 f_equal. lia. }
    rewrite Hlast, isSame_of_unix.
    replace (e / SECONDS_PER_DAY - (s / SECONDS_PER_DAY + 1))
      with (e / SECONDS_PER_DAY - s / SECONDS_PER_DAY - 1) by lia.
    destruct (dayStartOf e =? e); cbn [app].
    + rewrite app_nil_r. reflexivity.
    + unfold calculateLastDailyAmount, getFlowedTokenQuantityBetween.
      rewrite createDailyAmount_of_unix, diff_seconds_of_unix. reflexivity.
  - unfold calculateFirstDailyAmount, getFlowedTokenQuantityBetween.
    rewrite createDailyAmount_of_unix, diff_seconds_of_unix. reflexivity.
Qed.

(** ** Chains of amounts *)

Ltac day_arith :=
  unfold nextDayStartOf, dayStartOf, SECONDS_PER_DAY in *;
  Z.div_mod_to_equations; lia.

Lemma chainFrom_app (l1 : list DailyAmount) : forall a l2,
  chainFrom a (l1 ++ l2) <-> chainFrom a l1 /\ chainFrom (chainEnd a l1) l2.
Proof.
  induction l1 as [| x l1 IH]; intros a l2; cbn.
  - tauto.
  - rewrite IH. tauto.
Qed.

Lemma chainEnd_app (l1 : list DailyAmount) : forall a l2,
  chainEnd a (l1 ++ l2) = chainEnd (chainEnd a l1) l2.
Proof. induction l1 as [| x l1 IH]; intros a l2; cbn; [reflexivity | apply IH]. Qed.

Lemma chainFrom_contiguous (l : list DailyAmount) : forall a, chainFrom a l -> contiguous l.
Proof.
  induction l as [| x l IH]; intros a Hc i u v Hu Hv.
  - destruct i; discriminate.
  - destruct Hc as [_ Hc]. destruct i as [| i]; cbn in Hu, Hv.
    + injection Hu as <-. destruct l as [| y l]; [discriminate |].
      injection Hv as <-. destruct Hc as [Hy _]. symmetry; exact Hy.
    + exact (IH _ Hc i u v Hu Hv).
Qed.

Lemma chainFrom_lower_bound (l : list DailyAmount) : forall a,
  chainFrom a l -> Forall (fun x => startTime x < endTime x) l ->
  Forall (fun y => a <= startTime y) l.
Proof.
  induction l as [| x l IH]; intros a Hc Hpos; constructor.
  - destruct Hc as [Hx _]. lia.
  - destruct Hc as [Hx Hc]. inversion Hpos as [| ? ? Hlt Hrest]; subst.
    eapply Forall_impl; [| exact (IH _ Hc Hrest)].
    cbn. intros y Hy. lia.
Qed.

Lemma chainFrom_sorted (l : list DailyAmount) : forall a,
  chainFrom a l -> Forall (fun x => startTime x < endTime x) l -> StronglySorted precedes l.
Proof.
  induction l as [| x l IH]; intros a Hc Hpos; constructor.
  - destruct Hc as [_ Hc]. inversion Hpos; subst. eauto.
  - destruct Hc as [Hx Hc]. inversion Hpos as [| ? ? Hlt Hrest]; subst.
    eapply Forall_impl; [| exact (chainFrom_lower_bound _ _ Hc Hrest)].
    cbn. intros y Hy. unfold precedes. lia.
Qed.

Lemma chainFrom_hd (l : list DailyAmount) (a : Z) :
  l <> [] -> chainFrom a l -> option_map startTime (hd_error l) = Some a.
Proof.
  destruct l as [| x l]; [congruence |]. intros _ [Hx _]. cbn. f_equal. exact Hx.
Qed.

Lemma at_last_cons {A : Type} (x y : A) (l : list A) : at_last (x :: y :: l) = at_last (y :: l).
Proof.
  unfold at_last. cbn [rev].
  destruct (rev l ++ [y]) as [| z t] eqn:Hr.
  - destruct (rev l); discriminate.
  - reflexivity.
Qed.

Lemma chainEnd_at_last (l : list DailyAmount) : forall a,
  l <> [] -> option_map endTime (at_last l) = Some (chainEnd a l).
Proof.
  induction l as [| x l IH]; intros a Hne; [congruence |].
  destruct l as [| y l].
  - reflexivity.
  - rewrite at_last_cons. cbn [chainEnd]. rewrite (IH (endTime x)) by discriminate.
    reflexivity.
Qed.

Lemma Forall_removelast {A : Type} (P : A -> Prop) (l : list A) :
  Forall P l -> Forall P (removelast l).
Proof.
  induction l as [| x l IH]; intros H; [constructor |].
  inversion H; subst. destruct l as [| y l]; [constructor |].
  change (Forall P (x :: removelast (y :: l))). constructor; auto.
Qed.

Lemma sumQuantities_app (l1 l2 : list DailyAmount) :
  sumQuantities (l1 ++ l2) = sumQuantities l1 + sumQuantities l2.
Proof.
  induction l1 as [| x l1 IH]; cbn; [reflexivity |].
  fold (sumQuantities (l1 ++ l2)). fold (sumQuantities l1). lia.
Qed.

(** ** Runs of full days *)

Lemma fullDaySeq_chain (n : nat) : forall d r,
  chainFrom (SECONDS_PER_DAY * d) (fullDaySeq n d r) /\
  chainEnd (SECONDS_PER_DAY * d) (fullDaySeq n d r) = SECONDS_PER_DAY * (d + Z.of_nat n).
Proof.
  induction n as [| n IH]; intros d r.
  - cbn [fullDaySeq chainFrom chainEnd]. split; [exact I | f_equal; lia].
  - cbn [fullDaySeq chainFrom chainEnd startTime endTime].
    destruct (IH (d + 1) r) as [Hc He]. repeat split; [exact Hc |].
    rewrite He. f_equal. lia.
Qed.

Lemma fullDaySeq_isFullDay (n : nat) : forall d r, Forall (isFullDay r) (fullDaySeq n d r).
Proof.
  induction n as [| n IH]; intros d r; constructor; [| apply IH].
  unfold isFullDay. cbn [startTime endTime quantityInToken]. repeat split.
  - rewrite Z.mul_comm. apply Z_mod_mult.
  - lia.
Qed.

Lemma isFullDay_facts (r : Z) (l : list DailyAmount) :
  Forall (isFullDay r) l ->
  Forall (fun x => startTime x < endTime x) l /\
  Forall (fun x => endTime x mod SECONDS_PER_DAY = 0) l.
Proof.
  intros H; split; (eapply Forall_impl; [| exact H]); cbn;
    intros x (Ha & Hb & _); rewrite Hb.
  - unfold SECONDS_PER_DAY. lia.
  - rewrite <- Zplus_mod_idemp_l, Ha. reflexivity.
Qed.

Lemma fullDaySeq_In (n : nat) : forall d0 r a,
  In a (fullDaySeq n d0 r) <->
  exists d, d0 <= d < d0 + Z.of_nat n /\
            a = mkDailyAmount (SECONDS_PER_DAY * d) (SECONDS_PER_DAY * (d + 1)) (SECONDS_PER_DAY * r).
Proof.
  induction n as [| n IH]; intros d0 r a.
  - cbn. split; [tauto | intros (d & Hd & _); lia].
  - cbn [fullDaySeq In]. rewrite IH. split.
    + intros [<- | (d & Hd & ->)]; [exists d0 | exists d]; split; (lia || reflexivity).
    + intros (d & Hd & ->). destruct (Z.eq_dec d d0) as [-> | Hne]; [left; reflexivity |].
      right. exists d. split; [lia | reflexivity].
Qed.

Lemma fullDaySeq_sum (n : nat) : forall d r,
  sumQuantities (fullDaySeq n d r) = Z.of_nat n * (SECONDS_PER_DAY * r).
Proof.
  induction n as [| n IH]; intros d r; [reflexivity |].
  cbn [fullDaySeq sumQuantities fold_right quantityInToken].
  fold (sumQuantities (fullDaySeq n (d + 1) r)). rewrite IH. lia.
Qed.

Lemma fullDaySeq_shape (n : nat) : forall d r1 r2,
  shape (fullDaySeq n d r1) = shape (fullDaySeq n d r2).
Proof.
  induction n as [| n IH]; intros d r1 r2; [reflexivity |].
  cbn. f_equal. apply IH.
Qed.

Lemma fullDaySeq_zero (n : nat) : forall d,
  Forall (fun a => quantityInToken a = 0) (fullDaySeq n d 0).
Proof. induction n as [| n IH]; intros d; constructor; [reflexivity | apply IH]. Qed.

(** ** The structure of a decomposition *)

Lemma fullDays_count (s e : Z) :
  nextDayStartOf s < e ->
  Z.of_nat (Z.to_nat (e / SECONDS_PER_DAY - s / SECONDS_PER_DAY - 1))
  = e / SECONDS_PER_DAY - s / SECONDS_PER_DAY - 1.
Proof. intros H. apply Z2Nat.id. day_arith. Qed.

Lemma calculateDailyAmounts_single (s e r : Z) :
  e <= nextDayStartOf s ->
  calculateDailyAmounts (Moment.of_unix s) (Moment.of_unix e) r = [mkDailyAmount s e ((e - s) * r)].
Proof.
  intros H. rewrite calculateDailyAmounts_of_unix.
  destruct (Z.ltb_spec (nextDayStartOf s) e); [lia | reflexivity].
Qed.

Lemma calculateDailyAmounts_chain (s e r : Z) :
  chainFrom s (calculateDailyAmounts (Moment.of_unix s) (Moment.of_unix e) r) /\
  chainEnd s (calculateDailyAmounts (Moment.of_unix s) (Moment.of_unix e) r) = e.
Proof.
  rewrite calculateDailyAmounts_of_unix.
  destruct (Z.ltb_spec (nextDayStartOf s) e) as [Hspans | Hnot].
  - cbn [chainFrom chainEnd startTime endTime].
    rewrite chainFrom_app, chainEnd_app.
    destruct (fullDaySeq_chain (Z.to_nat (e / SECONDS_PER_DAY - s / SECONDS_PER_DAY - 1))
                (s / SECONDS_PER_DAY + 1) r) as [Hc He].
    fold (nextDayStartOf s) in Hc, He. rewrite He, fullDays_count by exact Hspans.
    replace (s / SECONDS_PER_DAY + 1 + (e / SECONDS_PER_DAY - s / SECONDS_PER_DAY - 1))
      with (e / SECONDS_PER_DAY) by lia.
    fold (dayStartOf e).
    destruct (Z.eqb_spec (dayStartOf e) e) as [Heq | Hne]; cbn; auto.
  - cbn. auto.
Qed.

Lemma calculateDailyAmounts_nonempty (startMoment endMoment : Moment.t) (r : Z) :
  calculateDailyAmounts startMoment endMoment r <> [].
Proof.
  unfold calculateDailyAmounts.
  destruct (negb _); [discriminate |].
  destruct (Moment.isSame _ _); discriminate.
Qed.

Lemma calculateDailyAmounts_positive (s e r : Z) :
  nextDayStartOf s < e ->
  Forall (fun x => startTime x < endTime x)
         (calculateDailyAmounts (Moment.of_unix s) (Moment.of_unix e) r).
Proof.
  intros Hspans. rewrite calculateDailyAmounts_of_unix.
  destruct (Z.ltb_spec (nextDayStartOf s) e) as [_ | Hnot]; [| lia].
  constructor; [cbn [startTime endTime]; day_arith |].
  apply Forall_app. split.
  - apply (isFullDay_facts r), fullDaySeq_isFullDay.
  - destruct (Z.eqb_spec (dayStartOf e) e) as [Heq | Hne]; constructor; [| constructor].
    cbn [startTime endTime]. day_arith.
Qed.

Lemma calculateDailyAmounts_sum (s e r : Z) :
  sumQuantities (calculateDailyAmounts (Moment.of_unix s) (Moment.of_unix e) r) = (e - s) * r.
Proof.
  rewrite calculateDailyAmounts_of_unix.
  destruct (Z.ltb_spec (nextDayStartOf s) e) as [Hspans | Hnot].
  - change (sumQuantities (?x :: ?l)) with (quantityInToken x + sumQuantities l).
    rewrite sumQuantities_app, fullDaySeq_sum, fullDays_count by exact Hspans.
    cbn [quantityInToken].
    assert (Htail : sumQuantities
                      (if dayStartOf e =? e then []
                       else [mkDailyAmount (dayStartOf e) e ((e - dayStartOf e) * r)])
                    = (e - dayStartOf e) * r).
    { destruct (Z.eqb_spec (dayStartOf e) e) as [Heq | Hne];
        cbn [sumQuantities fold_right quantityInToken]; [rewrite Heq |]; lia. }
    rewrite Htail. unfold nextDayStartOf, dayStartOf. ring.
  - cbn [sumQuantities fold_right quantityInToken]. lia.
Qed.

Lemma calculateDailyAmounts_aligned (s e r : Z) :
  Forall (fun a => endTime a mod SECONDS_PER_DAY = 0)
         (removelast (calculateDailyAmounts (Moment.of_unix s) (Moment.of_unix e) r)).
Proof.
  rewrite calculateDailyAmounts_of_unix.
  destruct (Z.ltb_spec (nextDayStartOf s) e) as [Hspans | Hnot]; [| constructor].
  set (first := mkDailyAmount s (nextDayStartOf s) ((nextDayStartOf s - s) * r)).
  set (days := fullDaySeq _ _ r).
  assert (Hall : Forall (fun a => endTime a mod SECONDS_PER_DAY = 0) (first :: days)).
  { constructor.
    - cbn [first endTime]. unfold nextDayStartOf. rewrite Z.mul_comm. apply Z_mod_mult.
    - apply (isFullDay_facts r), fullDaySeq_isFullDay. }
  destruct (dayStartOf e =? e).
  - rewrite app_nil_r. apply Forall_removelast, Hall.
  - change (first :: days ++ ?t) with ((first :: days) ++ t).
    rewrite removelast_last. exact Hall.
Qed.

Lemma calculateDailyAmounts_shape (s e r1 r2 : Z) :
  shape (calculateDailyAmounts (Moment.of_unix s) (Moment.of_unix e) r1)
  = shape (calculateDailyAmounts (Moment.of_unix s) (Moment.of_unix e) r2).
Proof.
  rewrite !calculateDailyAmounts_of_unix.
  destruct (nextDayStartOf s <? e); [| reflexivity].
  unfold shape. cbn [map startTime endTime]. rewrite !map_app. f_equal. f_equal.
  - apply fullDaySeq_shape.
  - destruct (dayStartOf e =? e); reflexivity.
Qed.

Lemma calculateFirstDailyAmount_spans (s e r : Z) :
  calculateFirstDailyAmount (Moment.of_unix s) (Moment.of_unix e) true r =
  mkDailyAmount s (nextDayStartOf s) ((nextDayStartOf s - s) * r).
Proof.
  unfold calculateFirstDailyAmount, getFlowedTokenQuantityBetween, Moment.clone.
  rewrite startOf_next_day_of_unix, createDailyAmount_of_unix, diff_seconds_of_unix.
  reflexivity.
Qed.

Lemma nextDayStartOf_div (s : Z) : nextDayStartOf s / SECONDS_PER_DAY = s / SECONDS_PER_DAY + 1.
Proof.
  unfold nextDayStartOf. rewrite Z.mul_comm. apply Z.div_mul. unfold SECONDS_PER_DAY; lia.
Qed.

Lemma fullDaysLoop_bounded_aligned (k : nat) : forall n endMoment r d acc,
  k = Z.to_nat (Moment.valueOf endMoment / Moment.MS_PER_DAY - d + 1) ->
  (k <= n)%nat ->
  fullDaysLoop_bounded n endMoment r (Moment.mk (Moment.MS_PER_DAY * d)) acc =
  Some (fullDaysLoop endMoment r (Moment.mk (Moment.MS_PER_DAY * d)) acc).
Proof.
  induction k as [| k IH]; intros n endMoment r d acc Hk Hn;
    rewrite fullDaysLoop_eq;
    destruct n as [| n]; cbn [fullDaysLoop_bounded];
    rewrite fullDaysCond_aligned;
    destruct (Z.leb_spec d (Moment.valueOf endMoment / Moment.MS_PER_DAY)); try lia;
    try reflexivity.
  rewrite fullDaysAdvance_aligned. apply IH; lia.
Qed.

(** ** Properties of the period normalizer *)

(** C1, as the specification states it, fails: a stream that is still active
    and started at second 100, reported over the window from 0 to 50, has an
    empty effective interval, and [getDailyAmounts] returns one amount. *)
Lemma getDailyAmounts_empty_interval_counterexample :
  50 < dailyAmountStartTimestamp (mkStreamPeriod 100 None 1) 0 /\
  getDailyAmounts (mkStreamPeriod 100 None 1) 0 50 = [mkDailyAmount 100 50 (-50)] /\
  getDailyAmounts (mkStreamPeriod 100 None 1) 0 50 <> [].
Proof.
  assert (H : getDailyAmounts (mkStreamPeriod 100 None 1) 0 50 = [mkDailyAmount 100 50 (-50)])
    by (vm_compute; reflexivity).
  rewrite H. split; [reflexivity | split; [reflexivity | discriminate]].
Qed.

Lemma dailyAmountEndTimestamp_le (p : StreamPeriod) (endTimestamp : Z) :
  dailyAmountEndTimestamp p endTimestamp <= endTimestamp.
Proof. unfold dailyAmountEndTimestamp. destruct (isStreamTerminated p); lia. Qed.

(** C1, amended: for every stream period and window whose end timestamp is
    strictly before the period's effective start, [getDailyAmounts] returns
    exactly one daily amount, which runs from the effective start to the
    effective end and carries their difference times the flow rate. *)
Theorem getDailyAmounts_inverted_interval (p : StreamPeriod) (startTimestamp endTimestamp : Z) :
  endTimestamp < dailyAmountStartTimestamp p startTimestamp ->
  getDailyAmounts p startTimestamp endTimestamp =
  [mkDailyAmount (dailyAmountStartTimestamp p startTimestamp)
                 (dailyAmountEndTimestamp p endTimestamp)
                 ((dailyAmountEndTimestamp p endTimestamp
                   - dailyAmountStartTimestamp p startTimestamp) * flowRate p)].
Proof.
  intros H. unfold getDailyAmounts. apply calculateDailyAmounts_single.
  pose proof (dailyAmountEndTimestamp_le p endTimestamp).
  set (a := dailyAmountStartTimestamp p startTimestamp) in *. day_arith.
Qed.

Lemma getDailyAmounts_inverted_interval_witness :
  50 < dailyAmountStartTimestamp (mkStreamPeriod 100 None 1) 0 /\
  getDailyAmounts (mkStreamPeriod 100 None 1) 0 50 =
  [mkDailyAmount (dailyAmountStartTimestamp (mkStreamPeriod 100 None 1) 0)
                 (dailyAmountEndTimestamp (mkStreamPeriod 100 None 1) 50)
                 ((dailyAmountEndTimestamp (mkStreamPeriod 100 None 1) 50
                   - dailyAmountStartTimestamp (mkStreamPeriod 100 None 1) 0)
                  * flowRate (mkStreamPeriod 100 None 1))].
Proof.
  split; [reflexivity |].
  apply (getDailyAmounts_inverted_interval (mkStreamPeriod 100 None 1) 0 50). reflexivity.
Defined.

(** C10: a stream period whose [stoppedAtTimestamp] is the number 0 is not
    terminated for [getDailyAmounts]: the effective end is the end of the
    window, and the result is the decomposition up to the end of the window. *)
Theorem stopped_at_zero_is_unterminated (p : StreamPeriod) (startTimestamp endTimestamp : Z) :
  stoppedAtTimestamp p = Some 0 ->
  isStreamTerminated p = false /\
  dailyAmountEndTimestamp p endTimestamp = endTimestamp /\
  getDailyAmounts p startTimestamp endTimestamp =
  calculateDailyAmounts (Moment.of_unix (Z.max (startedAtTimestamp p) startTimestamp))
                        (Moment.of_unix endTimestamp) (flowRate p).
Proof.
  intros H.
  assert (Ht : isStreamTerminated p = false) by (unfold isStreamTerminated; rewrite H; reflexivity).
  assert (He : dailyAmountEndTimestamp p endTimestamp = endTimestamp)
    by (unfold dailyAmountEndTimestamp; rewrite Ht; reflexivity).
  repeat split; [exact Ht | exact He |].
  unfold getDailyAmounts. rewrite He. reflexivity.
Qed.

Lemma stopped_at_zero_is_unterminated_witness :
  stoppedAtTimestamp (mkStreamPeriod 100 (Some 0) 1) = Some 0 /\
  dailyAmountEndTimestamp (mkStreamPeriod 100 (Some 0) 1) 200 = 200 /\
  getDailyAmounts (mkStreamPeriod 100 (Some 0) 1) 0 200 = [mkDailyAmount 100 200 100].
Proof.
  split; [reflexivity |].
  destruct (stopped_at_zero_is_unterminated (mkStreamPeriod 100 (Some 0) 1) 0 200 eq_refl)
    as (_ & He & Hg).
  split; [exact He |]. rewrite Hg. vm_compute. reflexivity.
Defined.

(** ** Properties of the decomposition engine *)

(** C2, conservation: for every start, end and flow rate with end at or after
    start, the quantities of the amounts of the decomposition add up to
    (end - start) * flowRate. *)
Theorem conservation (s e r : Z) :
  s <= e ->
  sumQuantities (calculateDailyAmounts (Moment.of_unix s) (Moment.of_unix e) r) = (e - s) * r.
Proof. intros _. apply calculateDailyAmounts_sum. Qed.

Lemma conservation_witness :
  1672574400 <= 1672725600 /\
  sumQuantities (calculateDailyAmounts (Moment.of_unix 1672574400) (Moment.of_unix 1672725600) 1)
  = (1672725600 - 1672574400) * 1.
Proof. split; [lia | apply (conservation 1672574400 1672725600 1); lia]. Defined.

(** C3, contiguity and boundary coverage: for every start, end and flow rate
    with end at or after start, each amount of the decomposition ends where
    the next one starts, the amounts are ordered by time, the first one
    starts at start and the last one ends at end. *)
Theorem contiguity (s e r : Z) :
  s <= e ->
  let amounts := calculateDailyAmounts (Moment.of_unix s) (Moment.of_unix e) r in
  contiguous amounts /\
  orderedByTime amounts /\
  option_map startTime (hd_error amounts) = Some s /\
  option_map endTime (at_last amounts) = Some e.
Proof.
  intros Hle amounts.
  destruct (calculateDailyAmounts_chain s e r) as [Hchain Hend].
  pose proof (calculateDailyAmounts_nonempty (Moment.of_unix s) (Moment.of_unix e) r) as Hne.
  fold amounts in Hchain, Hend, Hne.
  split; [exact (chainFrom_contiguous _ _ Hchain) |].
  split; [| split].
  - destruct (Z.lt_ge_cases (nextDayStartOf s) e) as [Hspans | Hnot].
    + pose proof (calculateDailyAmounts_positive s e r Hspans) as Hpos. fold amounts in Hpos.
      split; [| exact (chainFrom_sorted _ _ Hchain Hpos)].
      eapply Forall_impl; [| exact Hpos]. cbn. intros a Ha. lia.
    + subst amounts. rewrite (calculateDailyAmounts_single s e r Hnot).
      split; repeat constructor. exact Hle.
  - exact (chainFrom_hd _ _ Hne Hchain).
  - rewrite (chainEnd_at_last _ s Hne). f_equal. exact Hend.
Qed.

Lemma contiguity_witness :
  1672574400 <= 1672725600 /\
  contiguous (calculateDailyAmounts (Moment.of_unix 1672574400) (Moment.of_unix 1672725600) 1) /\
  option_map endTime
    (at_last (calculateDailyAmounts (Moment.of_unix 1672574400) (Moment.of_unix 1672725600) 1))
  = Some 1672725600.
Proof.
  split; [lia |].
  destruct (contiguity 1672574400 1672725600 1 ltac:(lia)) as (Hc & _ & _ & Hl).
  split; [exact Hc | exact Hl].
Defined.

(** C4, day alignment: for every start, end and flow rate with end at or
    after start, the end time of every amount of the decomposition but the
    last is a multiple of 86400 seconds, the start of a UTC day. *)
Theorem day_alignment (s e r : Z) :
  s <= e ->
  Forall (fun a => endTime a mod SECONDS_PER_DAY = 0)
         (removelast (calculateDailyAmounts (Moment.of_unix s) (Moment.of_unix e) r)).
Proof. intros _. apply calculateDailyAmounts_aligned. Qed.

Lemma day_alignment_witness :
  1672574400 <= 1672725600 /\
  Forall (fun a => endTime a mod SECONDS_PER_DAY = 0)
         (removelast (calculateDailyAmounts (Moment.of_unix 1672574400)
                                            (Moment.of_unix 1672725600) 1)).
Proof. split; [lia | apply (day_alignment 1672574400 1672725600 1); lia]. Defined.

(** C5, the full-day phase: when end is strictly after the day boundary that
    follows start, the amounts [calculateDailyAmountsForFullDaysBetween]
    emits are exactly the UTC days that begin at or after that boundary and
    end at or before end, each one spanning 86400 seconds with the quantity
    86400 * flowRate; when end is itself a day boundary, the day that ends at
    end is the last one emitted and the cursor returned is end. *)
Theorem full_day_phase (s e r : Z) :
  nextDayStartOf s < e ->
  let firstDailyAmount :=
    calculateFirstDailyAmount (Moment.of_unix s) (Moment.of_unix e) true r in
  let fullDays :=
    calculateDailyAmountsForFullDaysBetween
      (Moment.of_unix (endTime firstDailyAmount)) (Moment.of_unix e) r in
  Forall (isFullDay r) (fullDayAmounts fullDays) /\
  (forall a, In a (fullDayAmounts fullDays) <->
             exists d, nextDayStartOf s <= SECONDS_PER_DAY * d /\
                       SECONDS_PER_DAY * (d + 1) <= e /\
                       a = mkDailyAmount (SECONDS_PER_DAY * d) (SECONDS_PER_DAY * (d + 1))
                                         (SECONDS_PER_DAY * r)) /\
  (e mod SECONDS_PER_DAY = 0 ->
   at_last (fullDayAmounts fullDays)
   = Some (mkDailyAmount (e - SECONDS_PER_DAY) e (SECONDS_PER_DAY * r)) /\
   lastEndTime fullDays = Moment.of_unix e).
Proof.
  intros Hspans firstDailyAmount fullDays. subst firstDailyAmount fullDays.
  rewrite calculateFirstDailyAmount_spans. cbn [endTime].
  rewrite fullDaysBetween_amounts, fullDaysBetween_lastEndTime, !of_unix_div_day.
  rewrite nextDayStartOf_div.
  split; [apply fullDaySeq_isFullDay |]. split.
  - intros a. rewrite fullDaySeq_In.
    split.
    + intros (d & Hd & Ha). exists d. split; [| split]; [| | exact Ha]; day_arith.
    + intros (d & Hd1 & Hd2 & Ha). exists d. split; [| exact Ha]. day_arith.
  - intros Haligned.
    assert (Hcount : Z.to_nat (e / SECONDS_PER_DAY - (s / SECONDS_PER_DAY + 1)) =
                     S (Z.to_nat (e / SECONDS_PER_DAY - (s / SECONDS_PER_DAY + 1) - 1)))
      by day_arith.
    rewrite Hcount, fullDaySeq_snoc, at_last_app_one.
    assert (Hlt : s / SECONDS_PER_DAY + 1 < e / SECONDS_PER_DAY) by day_arith.
    rewrite (proj2 (Z.ltb_lt _ _) Hlt), <- of_unix_aligned.
    rewrite Z2Nat.id by lia.
    assert (He : SECONDS_PER_DAY * (e / SECONDS_PER_DAY) = e) by day_arith.
    split; [do 2 f_equal | f_equal; exact He].
    + rewrite <- He at 2. unfold SECONDS_PER_DAY. lia.
    + rewrite <- He at 2. unfold SECONDS_PER_DAY. lia.
Qed.

Lemma full_day_phase_witness :
  nextDayStartOf 1672574400 < 1672790400 /\
  at_last (fullDayAmounts
             (calculateDailyAmountsForFullDaysBetween
                (Moment.of_unix
                   (endTime (calculateFirstDailyAmount (Moment.of_unix 1672574400)
                                                       (Moment.of_unix 1672790400) true 1)))
                (Moment.of_unix 1672790400) 1))
  = Some (mkDailyAmount (1672790400 - SECONDS_PER_DAY) 1672790400 (SECONDS_PER_DAY * 1)).
Proof.
  split; [reflexivity |].
  destruct (full_day_phase 1672574400 1672790400 1 eq_refl) as (_ & _ & Hincl).
  exact (proj1 (Hincl eq_refl)).
Defined.

(** C6, single-day identity: when end is not strictly after the start of the
    day that follows start, the decomposition is the single amount
    (start, end, (end - start) * flowRate); for end equal to start it is the
    single amount (start, start, 0). *)
Theorem single_day_identity (s e r : Z) :
  e <= nextDayStartOf s ->
  calculateDailyAmounts (Moment.of_unix s) (Moment.of_unix e) r
  = [mkDailyAmount s e ((e - s) * r)] /\
  calculateDailyAmounts (Moment.of_unix s) (Moment.of_unix s) r = [mkDailyAmount s s 0].
Proof.
  intros H. split; [exact (calculateDailyAmounts_single s e r H) |].
  rewrite calculateDailyAmounts_single by day_arith.
  do 2 f_equal. lia.
Qed.

Lemma single_day_identity_witness :
  1672610400 <= nextDayStartOf 1672574400 /\
  calculateDailyAmounts (Moment.of_unix 1672574400) (Moment.of_unix 1672610400) 3
  = [mkDailyAmount 1672574400 1672610400 ((1672610400 - 1672574400) * 3)].
Proof.
  split; [discriminate |].
  exact (proj1 (single_day_identity 1672574400 1672610400 3 ltac:(discriminate))).
Defined.

(** C7, inverted interval: for every start, end and flow rate with end
    before start, the decomposition is the single amount that runs from start
    to end with the quantity (end - start) * flowRate; its duration is
    negative, and so is its quantity when the flow rate is positive. *)
Theorem inverted_interval (s e r : Z) :
  e < s ->
  calculateDailyAmounts (Moment.of_unix s) (Moment.of_unix e) r
  = [mkDailyAmount s e ((e - s) * r)] /\
  e - s < 0 /\
  (0 < r -> (e - s) * r < 0).
Proof.
  intros H. split; [apply calculateDailyAmounts_single; day_arith |].
  split; [lia | nia].
Qed.

Lemma inverted_interval_witness :
  50 < 100 /\
  calculateDailyAmounts (Moment.of_unix 100) (Moment.of_unix 50) 2
  = [mkDailyAmount 100 50 ((50 - 100) * 2)].
Proof.
  split; [lia |]. exact (proj1 (inverted_interval 100 50 2 ltac:(lia))).
Defined.

(** C8, the flow rate does not change the shape: for every start and end and
    any two flow rates, the two decompositions have the same length and the
    same (startTime, endTime) pairs position by position; with the flow rate
    0 every quantity is 0. *)
Theorem flow_rate_noninterference (s e r1 r2 : Z) :
  shape (calculateDailyAmounts (Moment.of_unix s) (Moment.of_unix e) r1)
  = shape (calculateDailyAmounts (Moment.of_unix s) (Moment.of_unix e) r2) /\
  length (calculateDailyAmounts (Moment.of_unix s) (Moment.of_unix e) r1)
  = length (calculateDailyAmounts (Moment.of_unix s) (Moment.of_unix e) r2) /\
  shape (calculateDailyAmounts (Moment.of_unix s) (Moment.of_unix e) 0)
  = shape (calculateDailyAmounts (Moment.of_unix s) (Moment.of_unix e) r1) /\
  Forall (fun a => quantityInToken a = 0)
         (calculateDailyAmounts (Moment.of_unix s) (Moment.of_unix e) 0).
Proof.
  pose proof (calculateDailyAmounts_shape s e r1 r2) as Hshape.
  split; [exact Hshape |]. split; [| split].
  - unfold shape in Hshape.
    rewrite <- (length_map (fun a => (startTime a, endTime a))), Hshape.
    apply length_map.
  - apply calculateDailyAmounts_shape.
  - rewrite calculateDailyAmounts_of_unix.
    destruct (nextDayStartOf s <? e).
    + constructor; [cbn [quantityInToken]; lia |].
      apply Forall_app. split; [apply fullDaySeq_zero |].
      destruct (dayStartOf e =? e); repeat constructor. cbn [quantityInToken]. lia.
    + repeat constructor. cbn [quantityInToken]. lia.
Qed.

(** C9, termination: the loop of the full days is defined by recursion on
    the number of day boundaries up to the end moment, so
    [calculateDailyAmounts] is a total function.  For every start, end and
    flow rate, (end - start) / 86400 iterations are enough for the loop as
    [calculateDailyAmounts] runs it, the decomposition has at most that
    number of amounts plus two, and every iteration moves the candidate day
    boundary to the next day. *)
Theorem termination (s e r : Z) :
  let endMoment := Moment.of_unix e in
  let startMoment :=
    Moment.of_unix (endTime (calculateFirstDailyAmount (Moment.of_unix s) endMoment true r)) in
  (forall n : nat,
     (Z.to_nat ((e - s) / SECONDS_PER_DAY) <= n)%nat ->
     fullDaysLoop_bounded n endMoment r
       (Moment.startOf_day (Moment.add_days 1 (Moment.clone startMoment))) []
     = Some (fullDayAmounts (calculateDailyAmountsForFullDaysBetween startMoment endMoment r))) /\
  (length (calculateDailyAmounts (Moment.of_unix s) endMoment r)
   <= Z.to_nat ((e - s) / SECONDS_PER_DAY) + 2)%nat /\
  (forall next : Moment.t,
     Moment.valueOf (fullDaysAdvance next) / Moment.MS_PER_DAY
     = Moment.valueOf next / Moment.MS_PER_DAY + 1).
Proof.
  intros endMoment startMoment. subst endMoment startMoment.
  rewrite calculateFirstDailyAmount_spans. cbn [endTime].
  split; [| split].
  - intros n Hn.
    unfold calculateDailyAmountsForFullDaysBetween. cbn [fullDayAmounts].
    unfold Moment.clone. rewrite startOf_next_day.
    apply (fullDaysLoop_bounded_aligned
             (Z.to_nat (Moment.valueOf (Moment.of_unix e) / Moment.MS_PER_DAY
                        - (Moment.valueOf (Moment.of_unix (nextDayStartOf s)) / Moment.MS_PER_DAY + 1)
                        + 1))); [reflexivity |].
    rewrite !of_unix_div_day, nextDayStartOf_div.
    revert Hn. day_arith.
  - rewrite calculateDailyAmounts_of_unix.
    destruct (Z.ltb_spec (nextDayStartOf s) e) as [Hspans | Hnot]; [| cbn [length]; lia].
    cbn [length]. rewrite length_app, fullDaySeq_length.
    match goal with |- context [length (if ?c then [] else [?x])] =>
      assert (Htail : (length (if c then [] else [x]) <= 1)%nat)
        by (destruct c; cbn [length]; lia);
      revert Htail; generalize (length (if c then [] else [x]))
    end.
    intros t Ht. day_arith.
  - intros next. unfold fullDaysAdvance. rewrite startOf_next_day. cbn [Moment.valueOf].
    apply div_day_aligned.
Qed.

(** ** Further properties of the decomposition engine *)

Lemma calculateDailyAmounts_spans (s e r : Z) :
  nextDayStartOf s < e ->
  calculateDailyAmounts (Moment.of_unix s) (Moment.of_unix e) r =
  mkDailyAmount s (nextDayStartOf s) ((nextDayStartOf s - s) * r)
    :: fullDaySeq (Z.to_nat (e / SECONDS_PER_DAY - s / SECONDS_PER_DAY - 1))
                  (s / SECONDS_PER_DAY + 1) r
    ++ lastPartialDay e r.
Proof.
  intros H. rewrite calculateDailyAmounts_of_unix.
  destruct (Z.ltb_spec (nextDayStartOf s) e); [reflexivity | lia].
Qed.

Lemma fullDaySeq_app (n1 : nat) : forall n2 d r,
  fullDaySeq (n1 + n2) d r = fullDaySeq n1 d r ++ fullDaySeq n2 (d + Z.of_nat n1) r.
Proof.
  induction n1 as [| n1 IH]; intros n2 d r.
  - cbn [fullDaySeq app Nat.add]. f_equal. lia.
  - cbn [fullDaySeq app Nat.add]. rewrite IH. do 3 f_equal. lia.
Qed.

Lemma fullDaySeq_quantity (n : nat) : forall d r,
  Forall (fun a => quantityInToken a = (endTime a - startTime a) * r) (fullDaySeq n d r).
Proof.
  induction n as [| n IH]; intros d r; constructor; [| apply IH].
  cbn [startTime endTime quantityInToken]. ring.
Qed.

Lemma lastPartialDay_Forall (P : DailyAmount -> Prop) (e r : Z) :
  (dayStartOf e <> e -> P (mkDailyAmount (dayStartOf e) e ((e - dayStartOf e) * r))) ->
  Forall P (lastPartialDay e r).
Proof.
  intros H. unfold lastPartialDay.
  destruct (Z.eqb_spec (dayStartOf e) e); repeat constructor. auto.
Qed.

(** X1: in every decomposition at whole seconds, each amount carries its own
    duration times the flow rate. *)
Theorem amounts_quantity (s e r : Z) :
  Forall (fun a => quantityInToken a = (endTime a - startTime a) * r)
         (calculateDailyAmounts (Moment.of_unix s) (Moment.of_unix e) r).
Proof.
  destruct (Z.lt_ge_cases (nextDayStartOf s) e) as [Hspans | Hnot].
  - rewrite calculateDailyAmounts_spans by exact Hspans.
    constructor; [reflexivity |]. apply Forall_app. split.
    + apply fullDaySeq_quantity.
    + apply lastPartialDay_Forall. reflexivity.
  - rewrite calculateDailyAmounts_single by exact Hnot. repeat constructor.
Qed.

Lemma calculateDailyAmounts_within (s e r : Z) :
  s <= e ->
  Forall (fun a => s <= startTime a /\ startTime a <= endTime a /\ endTime a <= e /\
                   endTime a <= nextDayStartOf (startTime a))
         (calculateDailyAmounts (Moment.of_unix s) (Moment.of_unix e) r).
Proof.
  intros Hle.
  destruct (Z.lt_ge_cases (nextDayStartOf s) e) as [Hspans | Hnot].
  - rewrite calculateDailyAmounts_spans by exact Hspans.
    constructor; [cbn [startTime endTime]; day_arith |]. apply Forall_app. split.
    + apply Forall_forall. intros a Ha. apply fullDaySeq_In in Ha.
      destruct Ha as (d & Hd & ->). cbn [startTime endTime].
      rewrite fullDays_count in Hd by exact Hspans. day_arith.
    + apply lastPartialDay_Forall. intros Hne. cbn [startTime endTime]. day_arith.
  - rewrite calculateDailyAmounts_single by exact Hnot.
    repeat constructor; cbn [startTime endTime]; day_arith.
Qed.

(** X2: for end at or after start, every amount of the decomposition lies
    between start and end, has a duration that is not negative, and ends no
    later than the start of the UTC day that follows its own start: it stays
    within one day. *)
Theorem amounts_within_one_day (s e r : Z) :
  s <= e ->
  Forall (fun a => s <= startTime a /\ startTime a <= endTime a /\ endTime a <= e /\
                   endTime a <= nextDayStartOf (startTime a))
         (calculateDailyAmounts (Moment.of_unix s) (Moment.of_unix e) r).
Proof. exact (calculateDailyAmounts_within s e r). Qed.

Lemma amounts_within_one_day_witness :
  1672574400 <= 1672725600 /\
  Forall (fun a => 1672574400 <= startTime a /\ startTime a <= endTime a /\
                   endTime a <= 1672725600 /\ endTime a <= nextDayStartOf (startTime a))
         (calculateDailyAmounts (Moment.of_unix 1672574400) (Moment.of_unix 1672725600) 1).
Proof. split; [lia | apply (amounts_within_one_day 1672574400 1672725600 1); lia]. Defined.

(** X3: for end strictly after start, no amount of the decomposition is
    empty: each one ends strictly after it starts. *)
Theorem amounts_not_empty (s e r : Z) :
  s < e ->
  Forall (fun a => startTime a < endTime a)
         (calculateDailyAmounts (Moment.of_unix s) (Moment.of_unix e) r).
Proof.
  intros Hlt.
  destruct (Z.lt_ge_cases (nextDayStartOf s) e) as [Hspans | Hnot].
  - exact (calculateDailyAmounts_positive s e r Hspans).
  - rewrite calculateDailyAmounts_single by exact Hnot. repeat constructor. exact Hlt.
Qed.

Lemma amounts_not_empty_witness :
  1672574400 < 1672725600 /\
  Forall (fun a => startTime a < endTime a)
         (calculateDailyAmounts (Moment.of_unix 1672574400) (Moment.of_unix 1672725600) 1).
Proof. split; [lia | apply (amounts_not_empty 1672574400 1672725600 1); lia]. Defined.

Lemma lastPartialDay_length (e r : Z) :
  Z.of_nat (length (lastPartialDay e r)) = (e + 86399) / SECONDS_PER_DAY - e / SECONDS_PER_DAY.
Proof.
  unfold lastPartialDay.
  destruct (Z.eqb_spec (dayStartOf e) e) as [Heq | Hne]; cbn [length]; day_arith.
Qed.

(** X4: for end strictly after start, the decomposition has one amount for
    each UTC day that the interval from start to end meets. *)
Theorem amounts_count (s e r : Z) :
  s < e ->
  Z.of_nat (length (calculateDailyAmounts (Moment.of_unix s) (Moment.of_unix e) r))
  = (e + 86399) / SECONDS_PER_DAY - s / SECONDS_PER_DAY.
Proof.
  intros Hlt.
  destruct (Z.lt_ge_cases (nextDayStartOf s) e) as [Hspans | Hnot].
  - rewrite calculateDailyAmounts_spans by exact Hspans.
    cbn [length]. rewrite length_app, fullDaySeq_length.
    rewrite Nat2Z.inj_succ, Nat2Z.inj_add, fullDays_count, lastPartialDay_length by exact Hspans.
    lia.
  - rewrite calculateDailyAmounts_single by exact Hnot. cbn [length]. day_arith.
Qed.

Lemma amounts_count_witness :
  1672574400 < 1672725600 /\
  Z.of_nat (length (calculateDailyAmounts (Moment.of_unix 1672574400)
                                          (Moment.of_unix 1672725600) 1))
  = (1672725600 + 86399) / SECONDS_PER_DAY - 1672574400 / SECONDS_PER_DAY.
Proof. split; [lia | apply (amounts_count 1672574400 1672725600 1); lia]. Defined.

Lemma calculateDailyAmounts_from_boundary (k e r : Z) :
  SECONDS_PER_DAY * k < e ->
  calculateDailyAmounts (Moment.of_unix (SECONDS_PER_DAY * k)) (Moment.of_unix e) r =
  fullDaySeq (Z.to_nat (e / SECONDS_PER_DAY - k)) k r ++ lastPartialDay e r.
Proof.
  intros Hlt.
  assert (Hk : SECONDS_PER_DAY * k / SECONDS_PER_DAY = k)
    by (rewrite Z.mul_comm; apply Z.div_mul; unfold SECONDS_PER_DAY; lia).
  assert (Hnext : nextDayStartOf (SECONDS_PER_DAY * k) = SECONDS_PER_DAY * (k + 1))
    by (unfold nextDayStartOf; rewrite Hk; reflexivity).
  destruct (Z.lt_ge_cases (nextDayStartOf (SECONDS_PER_DAY * k)) e) as [Hspans | Hnot].
  - rewrite calculateDailyAmounts_spans by exact Hspans. rewrite Hk, Hnext.
    replace (Z.to_nat (e / SECONDS_PER_DAY - k))
      with (S (Z.to_nat (e / SECONDS_PER_DAY - k - 1))) by day_arith.
    cbn [fullDaySeq app]. do 2 f_equal. ring.
  - rewrite calculateDailyAmounts_single by exact Hnot. rewrite Hnext in Hnot.
    unfold lastPartialDay.
    destruct (Z.eqb_spec (dayStartOf e) e) as [Heq | Hne].
    + assert (He : e = SECONDS_PER_DAY * (k + 1)) by day_arith.
      replace (Z.to_nat (e / SECONDS_PER_DAY - k)) with 1%nat by day_arith.
      cbn [fullDaySeq app]. rewrite He. do 2 f_equal. ring.
    + replace (Z.to_nat (e / SECONDS_PER_DAY - k)) with 0%nat by day_arith.
      assert (Hd : dayStartOf e = SECONDS_PER_DAY * k) by day_arith.
      rewrite Hd. reflexivity.
Qed.

Lemma calculateDailyAmounts_to_boundary (s k r : Z) :
  s < SECONDS_PER_DAY * k ->
  calculateDailyAmounts (Moment.of_unix s) (Moment.of_unix (SECONDS_PER_DAY * k)) r =
  mkDailyAmount s (nextDayStartOf s) ((nextDayStartOf s - s) * r)
    :: fullDaySeq (Z.to_nat (k - s / SECONDS_PER_DAY - 1)) (s / SECONDS_PER_DAY + 1) r.
Proof.
  intros Hlt.
  assert (Hk : SECONDS_PER_DAY * k / SECONDS_PER_DAY = k)
    by (rewrite Z.mul_comm; apply Z.div_mul; unfold SECONDS_PER_DAY; lia).
  destruct (Z.lt_ge_cases (nextDayStartOf s) (SECONDS_PER_DAY * k)) as [Hspans | Hnot].
  - rewrite calculateDailyAmounts_spans by exact Hspans. rewrite Hk.
    unfold lastPartialDay, dayStartOf. rewrite Hk, Z.eqb_refl, app_nil_r. reflexivity.
  - rewrite calculateDailyAmounts_single by exact Hnot.
    assert (He : SECONDS_PER_DAY * k = nextDayStartOf s) by day_arith.
    replace (Z.to_nat (k - s / SECONDS_PER_DAY - 1)) with 0%nat by day_arith.
    rewrite He. reflexivity.
Qed.

Lemma calculateDailyAmounts_split (s m e r : Z) :
  m mod SECONDS_PER_DAY = 0 -> s < m -> m < e ->
  calculateDailyAmounts (Moment.of_unix s) (Moment.of_unix e) r =
  calculateDailyAmounts (Moment.of_unix s) (Moment.of_unix m) r
  ++ calculateDailyAmounts (Moment.of_unix m) (Moment.of_unix e) r.
Proof.
  intros Hm Hsm Hme.
  assert (Hk : m = SECONDS_PER_DAY * (m / SECONDS_PER_DAY)) by day_arith.
  set (k := m / SECONDS_PER_DAY) in *. rewrite Hk.
  rewrite calculateDailyAmounts_to_boundary, calculateDailyAmounts_from_boundary by lia.
  rewrite calculateDailyAmounts_spans by day_arith.
  cbn [app]. f_equal. rewrite app_assoc. f_equal.
  replace (Z.to_nat (e / SECONDS_PER_DAY - s / SECONDS_PER_DAY - 1))
    with (Z.to_nat (k - s / SECONDS_PER_DAY - 1) + Z.to_nat (e / SECONDS_PER_DAY - k))%nat
    by day_arith.
  rewrite fullDaySeq_app. do 2 f_equal.
  rewrite Z2Nat.id by day_arith. lia.
Qed.

(** X5: cutting an interval at a day boundary strictly inside it cuts the
    decomposition: the amounts of [start, end) are those of [start, m)
    followed by those of [m, end), for every second m that is the start of a
    UTC day with start < m < end. *)
Theorem decomposition_splits_at_midnight (s m e r : Z) :
  m mod SECONDS_PER_DAY = 0 -> s < m -> m < e ->
  calculateDailyAmounts (Moment.of_unix s) (Moment.of_unix e) r =
  calculateDailyAmounts (Moment.of_unix s) (Moment.of_unix m) r
  ++ calculateDailyAmounts (Moment.of_unix m) (Moment.of_unix e) r.
Proof. exact (calculateDailyAmounts_split s m e r). Qed.

Lemma decomposition_splits_at_midnight_witness :
  1672617600 mod SECONDS_PER_DAY = 0 /\ 1672574400 < 1672617600 /\ 1672617600 < 1672725600 /\
  calculateDailyAmounts (Moment.of_unix 1672574400) (Moment.of_unix 1672725600) 1 =
  calculateDailyAmounts (Moment.of_unix 1672574400) (Moment.of_unix 1672617600) 1
  ++ calculateDailyAmounts (Moment.of_unix 1672617600) (Moment.of_unix 1672725600) 1.
Proof.
  split; [reflexivity |]. split; [lia |]. split; [lia |].
  apply (decomposition_splits_at_midnight 1672574400 1672617600 1672725600 1);
    [reflexivity | lia | lia].
Defined.

Lemma fullDaySeq_shift (n : nat) : forall d k r,
  fullDaySeq n (d + k) r = map (shiftAmount (SECONDS_PER_DAY * k)) (fullDaySeq n d r).
Proof.
  induction n as [| n IH]; intros d k r; [reflexivity |].
  cbn [fullDaySeq map]. f_equal.
  - unfold shiftAmount. cbn [startTime endTime quantityInToken]. f_equal; lia.
  - replace (d + k + 1) with (d + 1 + k) by lia. apply IH.
Qed.

(** X6: moving start and end by the same whole number of days moves every
    amount of the decomposition by that much and changes no quantity. *)
Theorem decomposition_shifts_by_days (s e r k : Z) :
  calculateDailyAmounts (Moment.of_unix (s + SECONDS_PER_DAY * k))
                        (Moment.of_unix (e + SECONDS_PER_DAY * k)) r =
  map (shiftAmount (SECONDS_PER_DAY * k))
      (calculateDailyAmounts (Moment.of_unix s) (Moment.of_unix e) r).
Proof.
  set (K := SECONDS_PER_DAY * k).
  assert (Hdiv : forall x, (x + K) / SECONDS_PER_DAY = x / SECONDS_PER_DAY + k).
  { intros x. unfold K. rewrite (Z.mul_comm SECONDS_PER_DAY k).
    apply Z.div_add. unfold SECONDS_PER_DAY; lia. }
  assert (Hnext : nextDayStartOf (s + K) = nextDayStartOf s + K)
    by (unfold nextDayStartOf; rewrite Hdiv; unfold K; lia).
  assert (Hday : dayStartOf (e + K) = dayStartOf e + K)
    by (unfold dayStartOf; rewrite Hdiv; unfold K; lia).
  destruct (Z.lt_ge_cases (nextDayStartOf s) e) as [Hspans | Hnot].
  - rewrite (calculateDailyAmounts_spans s e r Hspans).
    rewrite calculateDailyAmounts_spans by lia.
    rewrite !Hdiv, Hnext. cbn [map]. rewrite map_app. f_equal; [| f_equal].
    + unfold shiftAmount. cbn [startTime endTime quantityInToken].
      do 2 f_equal. lia.
    + replace (s / SECONDS_PER_DAY + k + 1) with (s / SECONDS_PER_DAY + 1 + k) by lia.
      replace (e / SECONDS_PER_DAY + k - (s / SECONDS_PER_DAY + k) - 1)
        with (e / SECONDS_PER_DAY - s / SECONDS_PER_DAY - 1) by lia.
      apply fullDaySeq_shift.
    + unfold lastPartialDay. rewrite Hday.
      destruct (Z.eqb_spec (dayStartOf e) e) as [Heq | Hne];
        destruct (Z.eqb_spec (dayStartOf e + K) (e + K)); try lia; [reflexivity |].
      cbn [map]. unfold shiftAmount. cbn [startTime endTime quantityInToken].
      do 3 f_equal. lia.
  - rewrite (calculateDailyAmounts_single s e r Hnot).
    rewrite calculateDailyAmounts_single by lia.
    cbn [map]. unfold shiftAmount. cbn [startTime endTime quantityInToken].
    do 3 f_equal. lia.
Qed.

Lemma fullDaysLoop_bounded_exhausted (k : nat) : forall n endMoment r d acc,
  k = Z.to_nat (Moment.valueOf endMoment / Moment.MS_PER_DAY - d + 1) ->
  (n < k)%nat ->
  fullDaysLoop_bounded n endMoment r (Moment.mk (Moment.MS_PER_DAY * d)) acc = None.
Proof.
  induction k as [| k IH]; intros n endMoment r d acc Hk Hn; [lia |].
  destruct n as [| n]; cbn [fullDaysLoop_bounded];
    rewrite fullDaysCond_aligned;
    destruct (Z.leb_spec d (Moment.valueOf endMoment / Moment.MS_PER_DAY)); try lia;
    try reflexivity.
  rewrite fullDaysAdvance_aligned. apply IH; lia.
Qed.

(** X7: the loop of the full days, as [calculateDailyAmounts] runs it for a
    start and an end at whole seconds, makes exactly
    end / 86400 - start / 86400 - 1 iterations (none when that is not
    positive): a bound on the iterations stops the loop early exactly when it
    is below that number. *)
Theorem full_days_loop_iterations (s e r : Z) (n : nat) :
  fullDaysLoop_bounded n (Moment.of_unix e) r
    (Moment.startOf_day (Moment.add_days 1 (Moment.clone (Moment.of_unix (nextDayStartOf s)))))
    [] = None
  <-> (n < Z.to_nat (e / SECONDS_PER_DAY - s / SECONDS_PER_DAY - 1))%nat.
Proof.
  unfold Moment.clone. rewrite startOf_next_day, of_unix_div_day, nextDayStartOf_div.
  set (k := Z.to_nat (Moment.valueOf (Moment.of_unix e) / Moment.MS_PER_DAY
                      - (s / SECONDS_PER_DAY + 1 + 1) + 1)).
  assert (Hk : k = Z.to_nat (e / SECONDS_PER_DAY - s / SECONDS_PER_DAY - 1))
    by (unfold k; rewrite of_unix_div_day; f_equal; lia).
  rewrite <- Hk. split.
  - intros Hnone. destruct (Nat.lt_ge_cases n k) as [Hlt | Hge]; [exact Hlt |].
    rewrite (fullDaysLoop_bounded_aligned k) in Hnone by (reflexivity || exact Hge).
    discriminate.
  - intros Hlt. apply (fullDaysLoop_bounded_exhausted k); [reflexivity | exact Hlt].
Qed.

Lemma full_days_loop_iterations_witness :
  (0 < Z.to_nat (1672725600 / SECONDS_PER_DAY - 1672574400 / SECONDS_PER_DAY - 1))%nat /\
  fullDaysLoop_bounded 0 (Moment.of_unix 1672725600) 1
    (Moment.startOf_day
       (Moment.add_days 1 (Moment.clone (Moment.of_unix (nextDayStartOf 1672574400)))))
    [] = None.
Proof.
  split; [vm_compute; lia |].
  apply (proj2 (full_days_loop_iterations 1672574400 1672725600 1 0)). vm_compute. lia.
Defined.

(** X8: [calculateDailyAmountsForFullDaysBetween] for any start and end at
    whole seconds.  It emits end / 86400 - start / 86400 days.  When end
    reaches the day boundary that follows start, the first day emitted is the
    whole UTC day that contains start, so it begins before start unless start
    is a day boundary, and the cursor returned is the start of the day that
    contains end.  Otherwise nothing is emitted and the cursor is the start
    moment. *)
Theorem full_days_between_any_start (a e r : Z) :
  let fullDays :=
    calculateDailyAmountsForFullDaysBetween (Moment.of_unix a) (Moment.of_unix e) r in
  length (fullDayAmounts fullDays) = Z.to_nat (e / SECONDS_PER_DAY - a / SECONDS_PER_DAY) /\
  (nextDayStartOf a <= e ->
   hd_error (fullDayAmounts fullDays)
   = Some (mkDailyAmount (dayStartOf a) (nextDayStartOf a) (SECONDS_PER_DAY * r)) /\
   lastEndTime fullDays = Moment.of_unix (dayStartOf e)) /\
  (e < nextDayStartOf a ->
   fullDayAmounts fullDays = [] /\ lastEndTime fullDays = Moment.of_unix a).
Proof.
  intros fullDays. subst fullDays.
  rewrite fullDaysBetween_amounts, fullDaysBetween_lastEndTime, !of_unix_div_day.
  split; [apply fullDaySeq_length |]. split.
  - intros Hle.
    assert (Hlt : a / SECONDS_PER_DAY < e / SECONDS_PER_DAY) by day_arith.
    rewrite (proj2 (Z.ltb_lt _ _) Hlt), <- of_unix_aligned.
    destruct (Z.to_nat (e / SECONDS_PER_DAY - a / SECONDS_PER_DAY)) as [| n] eqn:Hn; [lia |].
    split; reflexivity.
  - intros Hlt.
    assert (Hge : e / SECONDS_PER_DAY <= a / SECONDS_PER_DAY) by day_arith.
    rewrite (proj2 (Z.ltb_ge _ _) Hge).
    replace (Z.to_nat (e / SECONDS_PER_DAY - a / SECONDS_PER_DAY)) with 0%nat by lia.
    split; reflexivity.
Qed.

Lemma full_days_between_any_start_witness :
  nextDayStartOf 1672574400 <= 1672725600 /\
  hd_error (fullDayAmounts
              (calculateDailyAmountsForFullDaysBetween
                 (Moment.of_unix 1672574400) (Moment.of_unix 1672725600) 1))
  = Some (mkDailyAmount (dayStartOf 1672574400) (nextDayStartOf 1672574400)
                        (SECONDS_PER_DAY * 1)) /\
  dayStartOf 1672574400 < 1672574400.
Proof.
  split; [discriminate |]. split; [| reflexivity].
  destruct (full_days_between_any_start 1672574400 1672725600 1) as (_ & Hreach & _).
  exact (proj1 (Hreach ltac:(discriminate))).
Defined.

(** ** Further properties of the period normalizer *)

(** X9: when the effective interval of a period in a window is not inverted,
    every amount [getDailyAmounts] returns lies inside the window and inside
    the lifetime of the period: it starts at or after both the start of the
    window and the start of the stream, and ends at or before the end of the
    window and, for a terminated stream, the stop of the stream. *)
Theorem getDailyAmounts_clipped (p : StreamPeriod) (startTimestamp endTimestamp : Z) :
  dailyAmountStartTimestamp p startTimestamp <= dailyAmountEndTimestamp p endTimestamp ->
  Forall (fun a => startTimestamp <= startTime a /\
                   startedAtTimestamp p <= startTime a /\
                   startTime a <= endTime a /\
                   endTime a <= endTimestamp /\
                   (isStreamTerminated p = true ->
                    endTime a <= toNumber (stoppedAtTimestamp p)))
         (getDailyAmounts p startTimestamp endTimestamp).
Proof.
  intros Hle. unfold getDailyAmounts.
  eapply Forall_impl; [| exact (calculateDailyAmounts_within _ _ (flowRate p) Hle)].
  cbn beta. intros a (Hs & Hd & He & _).
  unfold dailyAmountStartTimestamp, dailyAmountEndTimestamp in *.
  destruct (isStreamTerminated p); repeat split; try lia; discriminate.
Qed.

Lemma getDailyAmounts_clipped_witness :
  dailyAmountStartTimestamp (mkStreamPeriod 1672574400 (Some 1672725600) 1) 1672600000
  <= dailyAmountEndTimestamp (mkStreamPeriod 1672574400 (Some 1672725600) 1) 1672700000 /\
  Forall (fun a => 1672600000 <= startTime a /\ endTime a <= 1672700000)
         (getDailyAmounts (mkStreamPeriod 1672574400 (Some 1672725600) 1)
                          1672600000 1672700000).
Proof.
  split; [discriminate |].
  eapply Forall_impl;
    [| apply (getDailyAmounts_clipped (mkStreamPeriod 1672574400 (Some 1672725600) 1)
                1672600000 1672700000); discriminate].
  cbn beta. intros a (H1 & _ & _ & H2 & _). split; assumption.
Defined.

(** X10: two reporting windows that meet at a day boundary account for a
    period like the window that joins them: when the boundary m is strictly
    between the effective start and the effective end of the period, the
    amounts for the window from startTimestamp to endTimestamp are those for
    the window up to m followed by those for the window from m. *)
Theorem getDailyAmounts_adjacent_windows (p : StreamPeriod) (startTimestamp m endTimestamp : Z) :
  m mod SECONDS_PER_DAY = 0 ->
  dailyAmountStartTimestamp p startTimestamp < m ->
  m < dailyAmountEndTimestamp p endTimestamp ->
  getDailyAmounts p startTimestamp endTimestamp =
  getDailyAmounts p startTimestamp m ++ getDailyAmounts p m endTimestamp.
Proof.
  intros Hm Hs He. unfold getDailyAmounts.
  assert (Hend : dailyAmountEndTimestamp p m = m).
  { unfold dailyAmountEndTimestamp in *. destruct (isStreamTerminated p); lia. }
  assert (Hstart : dailyAmountStartTimestamp p m = m).
  { unfold dailyAmountStartTimestamp in *. lia. }
  rewrite Hend, Hstart.
  apply calculateDailyAmounts_split; assumption.
Qed.

Lemma getDailyAmounts_adjacent_windows_witness :
  1672617600 mod SECONDS_PER_DAY = 0 /\
  getDailyAmounts (mkStreamPeriod 1672574400 None 1) 0 1672725600 =
  getDailyAmounts (mkStreamPeriod 1672574400 None 1) 0 1672617600
  ++ getDailyAmounts (mkStreamPeriod 1672574400 None 1) 1672617600 1672725600.
Proof.
  split; [reflexivity |].
  apply (getDailyAmounts_adjacent_windows (mkStreamPeriod 1672574400 None 1)
           0 1672617600 1672725600); reflexivity.
Defined.

(** ** Objects *)

Lemma lookup_setField_eq (k : String.string) (v : Js.value) (o : Js.object) :
  Js.lookup k (Js.setField k v o) = Some v.
Proof.
  induction o as [| [k' v'] o IH]; cbn [Js.setField Js.lookup].
  - rewrite String.eqb_refl. reflexivity.
  - destruct (String.eqb k k') eqn:E; cbn [Js.lookup].
    + rewrite String.eqb_refl. reflexivity.
    + rewrite E. exact IH.
Qed.

Lemma lookup_setField_ne (k k' : String.string) (v : Js.value) (o : Js.object) :
  k <> k' -> Js.lookup k' (Js.setField k v o) = Js.lookup k' o.
Proof.
  intros Hne. apply String.eqb_neq in Hne. rewrite String.eqb_sym in Hne.
  induction o as [| [k2 v2] o IH]; cbn [Js.setField Js.lookup].
  - rewrite Hne. reflexivity.
  - destruct (String.eqb k k2) eqn:E; cbn [Js.lookup].
    + apply String.eqb_eq in E. subst k2. rewrite Hne. reflexivity.
    + rewrite IH. reflexivity.
Qed.

Lemma lookup_removeField_eq (k : String.string) (o : Js.object) :
  Js.lookup k (Js.removeField k o) = None.
Proof.
  induction o as [| [k' v'] o IH]; [reflexivity |].
  unfold Js.removeField in *. cbn [filter fst].
  destruct (String.eqb k k') eqn:E; cbn [negb Js.lookup]; [exact IH |].
  rewrite E. exact IH.
Qed.

Lemma lookup_removeField_ne (k k' : String.string) (o : Js.object) :
  k <> k' -> Js.lookup k' (Js.removeField k o) = Js.lookup k' o.
Proof.
  intros Hne. apply String.eqb_neq in Hne. rewrite String.eqb_sym in Hne.
  induction o as [| [k2 v2] o IH]; [reflexivity |].
  unfold Js.removeField in *. cbn [filter fst].
  destruct (String.eqb k k2) eqn:E; cbn [negb Js.lookup].
  - apply String.eqb_eq in E. subst k2. rewrite Hne. exact IH.
  - rewrite IH. reflexivity.
Qed.

Lemma getField_setField_eq (k : String.string) (v : Js.value) (o : Js.object) :
  Js.getField (Js.setField k v o) k = v.
Proof. unfold Js.getField. rewrite lookup_setField_eq. reflexivity. Qed.

Lemma getField_setField_ne (k k' : String.string) (v : Js.value) (o : Js.object) :
  k <> k' -> Js.getField (Js.setField k v o) k' = Js.getField o k'.
Proof. intros H. unfold Js.getField. rewrite lookup_setField_ne by exact H. reflexivity. Qed.

Lemma getField_removeField_ne (k k' : String.string) (o : Js.object) :
  k <> k' -> Js.getField (Js.removeField k o) k' = Js.getField o k'.
Proof. intros H. unfold Js.getField. rewrite lookup_removeField_ne by exact H. reflexivity. Qed.

Lemma setField_keys (k : String.string) (v : Js.value) (o : Js.object) :
  List.map fst (Js.setField k v o) =
  match Js.lookup k o with
  | Some _ => List.map fst o
  | None => List.map fst o ++ [k]
  end.
Proof.
  induction o as [| [k' v'] o IH]; [reflexivity |].
  cbn [Js.setField Js.lookup]. destruct (String.eqb k k') eqn:E.
  - apply String.eqb_eq in E. subst k'. reflexivity.
  - cbn [List.map fst]. rewrite IH. destruct (Js.lookup k o); reflexivity.
Qed.

Lemma lookup_None_keys (k : String.string) (o : Js.object) :
  Js.lookup k o = None <-> ~ In k (List.map fst o).
Proof.
  induction o as [| [k' v'] o IH]; cbn [Js.lookup List.map fst In]; [tauto |].
  destruct (String.eqb_spec k k') as [-> | Hne].
  - split; [discriminate | intros H; exfalso; apply H; left; reflexivity].
  - rewrite IH. split; [intros H [Heq | Hin]; [congruence | tauto] | tauto].
Qed.

Lemma setField_NoDup (k : String.string) (v : Js.value) (o : Js.object) :
  NoDup (List.map fst o) -> NoDup (List.map fst (Js.setField k v o)).
Proof.
  intros H. rewrite setField_keys. destruct (Js.lookup k o) eqn:E; [exact H |].
  apply lookup_None_keys in E.
  apply NoDup_app; [exact H | repeat constructor; intros [] | ].
  intros x Hx [<- | []]. exact (E Hx).
Qed.

Lemma removeField_NoDup (k : String.string) (o : Js.object) :
  NoDup (List.map fst o) -> NoDup (List.map fst (Js.removeField k o)).
Proof.
  induction o as [| [k' v'] o IH]; intros H; [constructor |].
  inversion H as [| ? ? Hnotin Hrest]; subst.
  unfold Js.removeField in *. cbn [filter fst].
  destruct (negb (String.eqb k k')); [| exact (IH Hrest)].
  cbn [List.map fst]. constructor; [| exact (IH Hrest)].
  intros Hin. apply Hnotin. apply in_map_iff in Hin. destruct Hin as ([k2 v2] & Hk & Hin).
  apply filter_In in Hin. apply in_map_iff. exists (k2, v2). tauto.
Qed.

Lemma member_Throws (v : Js.value) (k : String.string) :
  Js.member v k = Js.Throws <-> Js.nullish v = true.
Proof. unfold Js.member. destruct (Js.nullish v); split; congruence. Qed.

Lemma member_Returns (v : Js.value) (k : String.string) (x : Js.value) :
  Js.member v k = Js.Returns x <-> Js.nullish v = false /\ x = Js.memberOf v k.
Proof.
  unfold Js.member. destruct (Js.nullish v); split; try congruence.
  - intros [H _]. discriminate.
  - intros [= <-]. auto.
  - intros [_ ->]. reflexivity.
Qed.

Lemma truthy_not_nullish (v : Js.value) : Js.truthy v = true -> Js.nullish v = false.
Proof. destruct v; cbn; congruence. Qed.

(** ** Flattening a stream period *)

Ltac key_ne := intros Hkey; discriminate Hkey.

Lemma flattenSenderAndReceiver_Returns (o o' : Js.object) :
  flattenSenderAndReceiver o = Js.Returns o' <->
  Js.nullish (Js.getField o "sender") = false /\
  Js.nullish (Js.getField o "receiver") = false /\
  o' = Js.setField "receiver" (Js.memberOf (Js.getField o "receiver") "id")
         (Js.setField "sender" (Js.memberOf (Js.getField o "sender") "id") o).
Proof.
  unfold flattenSenderAndReceiver, Js.member.
  destruct (Js.nullish (Js.getField o "sender")),
           (Js.nullish (Js.getField o "receiver")); cbn [Js.bind];
    split; try discriminate; try (intros (H1 & H2 & _); discriminate).
  - intros [= <-]. auto.
  - intros (_ & _ & ->). reflexivity.
Qed.

(** X11: [flattenSenderAndReceiver] throws exactly when the [sender] or the
    [receiver] of the stream period is missing, [undefined] or [null]. *)
Theorem flattenSenderAndReceiver_throws (o : Js.object) :
  flattenSenderAndReceiver o = Js.Throws <->
  Js.nullish (Js.getField o "sender") = true \/ Js.nullish (Js.getField o "receiver") = true.
Proof.
  unfold flattenSenderAndReceiver, Js.member.
  destruct (Js.nullish (Js.getField o "sender")),
           (Js.nullish (Js.getField o "receiver")); cbn [Js.bind];
    split; auto; try discriminate; intros [H | H]; discriminate.
Qed.

Lemma flattenSenderAndReceiver_throws_witness :
  Js.nullish (Js.getField [("sender"%string, Js.VObj [("id"%string, Js.VStr "0xa")]);
                           ("receiver"%string, Js.VNull)] "receiver") = true /\
  flattenSenderAndReceiver [("sender"%string, Js.VObj [("id"%string, Js.VStr "0xa")]);
                            ("receiver"%string, Js.VNull)] = Js.Throws.
Proof.
  split; [reflexivity |].
  apply (proj2 (flattenSenderAndReceiver_throws
                  [("sender"%string, Js.VObj [("id"%string, Js.VStr "0xa")]);
                   ("receiver"%string, Js.VNull)])).
  right. reflexivity.
Defined.

(** X12: when [flattenSenderAndReceiver] returns, the result has the [id] of
    the sender as [sender] and the [id] of the receiver as [receiver], every
    other property is the one of the stream period, the properties keep
    their order when the period has a sender and a receiver, and the keys
    stay distinct. *)
Theorem flattenSenderAndReceiver_returns (o o' : Js.object) :
  flattenSenderAndReceiver o = Js.Returns o' ->
  Js.getField o' "sender" = Js.memberOf (Js.getField o "sender") "id" /\
  Js.getField o' "receiver" = Js.memberOf (Js.getField o "receiver") "id" /\
  (forall k, k <> "sender"%string -> k <> "receiver"%string -> Js.lookup k o' = Js.lookup k o) /\
  (Js.lookup "sender" o <> None -> Js.lookup "receiver" o <> None ->
   List.map fst o' = List.map fst o) /\
  (NoDup (List.map fst o) -> NoDup (List.map fst o')).
Proof.
  intros H. apply flattenSenderAndReceiver_Returns in H. destruct H as (_ & _ & ->).
  split; [| split; [| split; [| split]]].
  - rewrite getField_setField_ne by key_ne. apply getField_setField_eq.
  - apply getField_setField_eq.
  - intros k Hs Hr. rewrite !lookup_setField_ne by congruence. reflexivity.
  - intros Hs Hr. rewrite !setField_keys.
    rewrite lookup_setField_ne by key_ne.
    destruct (Js.lookup "receiver" o); [| congruence].
    destruct (Js.lookup "sender" o); [reflexivity | congruence].
  - intros Hnd. apply setField_NoDup, setField_NoDup, Hnd.
Qed.

Lemma flattenSenderAndReceiver_returns_witness :
  flattenSenderAndReceiver
    [("id"%string, Js.VStr "p1");
     ("sender"%string, Js.VObj [("id"%string, Js.VStr "0xa")]);
     ("receiver"%string, Js.VObj [("id"%string, Js.VStr "0xb")])]
  = Js.Returns [("id"%string, Js.VStr "p1");
                ("sender"%string, Js.VStr "0xa");
                ("receiver"%string, Js.VStr "0xb")] /\
  Js.getField [("id"%string, Js.VStr "p1");
               ("sender"%string, Js.VStr "0xa");
               ("receiver"%string, Js.VStr "0xb")] "sender" = Js.VStr "0xa".
Proof.
  split; [reflexivity |].
  exact (proj1 (flattenSenderAndReceiver_returns
                  [("id"%string, Js.VStr "p1");
                   ("sender"%string, Js.VObj [("id"%string, Js.VStr "0xa")]);
                   ("receiver"%string, Js.VObj [("id"%string, Js.VStr "0xb")])]
                  _ eq_refl)).
Defined.

Lemma flattenStartEndEventTransactions_Returns (o o' : Js.object) :
  flattenStartEndEventTransactions o = Js.Returns o' <->
  Js.nullish (Js.getField o "startedAtEvent") = false /\
  o' = Js.removeField "stoppedAtEvent"
         (Js.removeField "startedAtEvent"
            (Js.setField "streamClosingTxHash"
               (if Js.truthy (Js.getField o "stoppedAtEvent")
                then Js.memberOf (Js.getField o "stoppedAtEvent") "transactionHash"
                else Js.VNull)
               (Js.setField "streamOpeningTxHash"
                  (Js.memberOf (Js.getField o "startedAtEvent") "transactionHash") o))).
Proof.
  unfold flattenStartEndEventTransactions, Js.member.
  destruct (Js.nullish (Js.getField o "startedAtEvent")); cbn [Js.bind].
  - split; [discriminate | intros [H _]; discriminate].
  - destruct (Js.truthy (Js.getField o "stoppedAtEvent")) eqn:Ht.
    + rewrite (truthy_not_nullish _ Ht). cbn [Js.bind].
      split; [intros [= <-]; auto | intros [_ ->]; reflexivity].
    + cbn [Js.bind]. split; [intros [= <-]; auto | intros [_ ->]; reflexivity].
Qed.

Lemma flattenStartEndEventTransactions_throws_iff (o : Js.object) :
  flattenStartEndEventTransactions o = Js.Throws <->
  Js.nullish (Js.getField o "startedAtEvent") = true.
Proof.
  unfold flattenStartEndEventTransactions, Js.member.
  destruct (Js.nullish (Js.getField o "startedAtEvent")); cbn [Js.bind].
  - split; reflexivity.
  - destruct (Js.truthy (Js.getField o "stoppedAtEvent")) eqn:Ht.
    + rewrite (truthy_not_nullish _ Ht). cbn [Js.bind]. split; discriminate.
    + cbn [Js.bind]. split; discriminate.
Qed.

(** X13: [flattenStartEndEventTransactions] throws exactly when the
    [startedAtEvent] of the stream period is missing, [undefined] or [null];
    a [stoppedAtEvent] of any kind never makes it throw. *)
Theorem flattenStartEndEventTransactions_throws (o : Js.object) :
  flattenStartEndEventTransactions o = Js.Throws <->
  Js.nullish (Js.getField o "startedAtEvent") = true.
Proof. exact (flattenStartEndEventTransactions_throws_iff o). Qed.

Lemma flattenStartEndEventTransactions_throws_witness :
  Js.nullish (Js.getField [("id"%string, Js.VStr "p1")] "startedAtEvent") = true /\
  flattenStartEndEventTransactions [("id"%string, Js.VStr "p1")] = Js.Throws.
Proof.
  split; [reflexivity |].
  apply (proj2 (flattenStartEndEventTransactions_throws [("id"%string, Js.VStr "p1")])).
  reflexivity.
Defined.

(** X14: when [flattenStartEndEventTransactions] returns, the result has no
    [startedAtEvent] and no [stoppedAtEvent]; its [streamOpeningTxHash] is
    the transaction hash of the started event; its [streamClosingTxHash] is
    the transaction hash of the stopped event when that event is truthy and
    [null] otherwise; every other property is the one of the stream period,
    and the keys stay distinct. *)
Theorem flattenStartEndEventTransactions_returns (o o' : Js.object) :
  flattenStartEndEventTransactions o = Js.Returns o' ->
  Js.lookup "startedAtEvent" o' = None /\
  Js.lookup "stoppedAtEvent" o' = None /\
  Js.getField o' "streamOpeningTxHash"
  = Js.memberOf (Js.getField o "startedAtEvent") "transactionHash" /\
  Js.getField o' "streamClosingTxHash"
  = (if Js.truthy (Js.getField o "stoppedAtEvent")
     then Js.memberOf (Js.getField o "stoppedAtEvent") "transactionHash"
     else Js.VNull) /\
  (forall k, k <> "startedAtEvent"%string -> k <> "stoppedAtEvent"%string ->
             k <> "streamOpeningTxHash"%string -> k <> "streamClosingTxHash"%string ->
             Js.lookup k o' = Js.lookup k o) /\
  (NoDup (List.map fst o) -> NoDup (List.map fst o')).
Proof.
  intros H. apply flattenStartEndEventTransactions_Returns in H. destruct H as (_ & ->).
  split; [| split; [| split; [| split; [| split]]]].
  - rewrite lookup_removeField_ne by key_ne. apply lookup_removeField_eq.
  - apply lookup_removeField_eq.
  - rewrite !getField_removeField_ne by key_ne.
    rewrite getField_setField_ne by key_ne. apply getField_setField_eq.
  - rewrite !getField_removeField_ne by key_ne. apply getField_setField_eq.
  - intros k H1 H2 H3 H4.
    rewrite !lookup_removeField_ne by congruence.
    rewrite !lookup_setField_ne by congruence. reflexivity.
  - intros Hnd. apply removeField_NoDup, removeField_NoDup, setField_NoDup, setField_NoDup, Hnd.
Qed.

Lemma flattenStartEndEventTransactions_returns_witness :
  flattenStartEndEventTransactions
    [("id"%string, Js.VStr "p1");
     ("startedAtEvent"%string, Js.VObj [("transactionHash"%string, Js.VStr "0x1")]);
     ("stoppedAtEvent"%string, Js.VNull)]
  = Js.Returns [("id"%string, Js.VStr "p1");
                ("streamOpeningTxHash"%string, Js.VStr "0x1");
                ("streamClosingTxHash"%string, Js.VNull)] /\
  Js.lookup "startedAtEvent"
    [("id"%string, Js.VStr "p1");
     ("streamOpeningTxHash"%string, Js.VStr "0x1");
     ("streamClosingTxHash"%string, Js.VNull)] = None.
Proof.
  split; [reflexivity |].
  exact (proj1 (flattenStartEndEventTransactions_returns
                  [("id"%string, Js.VStr "p1");
                   ("startedAtEvent"%string,
                    Js.VObj [("transactionHash"%string, Js.VStr "0x1")]);
                   ("stoppedAtEvent"%string, Js.VNull)]
                  _ eq_refl)).
Defined.

(** ** Mapping the stream periods of an answer *)

Lemma map_Returns {A B : Type} (f : A -> Js.outcome B) (l : list A) : forall ys,
  Js.map f l = Js.Returns ys <-> Forall2 (fun x y => f x = Js.Returns y) l ys.
Proof.
  induction l as [| x l IH]; intros ys; cbn [Js.map].
  - split; [intros [= <-]; constructor | intros H; inversion H; reflexivity].
  - destruct (f x) as [y | |] eqn:Hx; cbn [Js.bind].
    + destruct (Js.map f l) as [ys' | |] eqn:Hl; cbn [Js.bind].
      * split.
        -- intros [= <-]. constructor; [exact Hx | apply IH; reflexivity].
        -- intros H. inversion H as [| ? y0 ? ys0 Hy Hrest]; subst.
           apply IH in Hrest. congruence.
      * split; [discriminate |]. intros H. inversion H as [| ? y0 ? ys0 Hy Hrest]; subst.
        apply IH in Hrest. discriminate.
      * split; [discriminate |]. intros H. inversion H as [| ? y0 ? ys0 Hy Hrest]; subst.
        apply IH in Hrest. discriminate.
    + split; [discriminate |]. intros H. inversion H; subst. congruence.
    + split; [discriminate |]. intros H. inversion H; subst. congruence.
Qed.

Lemma map_Throws {A B : Type} (f : A -> Js.outcome B) (l : list A) :
  (forall x, f x <> Js.Unmodelled) ->
  (Js.map f l = Js.Throws <-> Exists (fun x => f x = Js.Throws) l) /\
  Js.map f l <> Js.Unmodelled.
Proof.
  intros Hf. induction l as [| x l [IH1 IH2]]; cbn [Js.map].
  - split; [split; [discriminate | intros H; inversion H] | discriminate].
  - destruct (f x) as [y | |] eqn:Hx; cbn [Js.bind].
    + destruct (Js.map f l) as [ys' | |] eqn:Hl; cbn [Js.bind].
      * split; [| discriminate]. split; [discriminate |].
        intros H. inversion H as [? ? Hh | ? ? Ht]; subst; [congruence |].
        apply IH1 in Ht. discriminate.
      * split; [| discriminate]. split; [| reflexivity].
        intros _. right. apply IH1. reflexivity.
      * congruence.
    + split; [| discriminate]. split; [| reflexivity]. intros _. left. exact Hx.
    + exfalso. exact (Hf x Hx).
Qed.

Lemma map_no_Throws {A B : Type} (f : A -> Js.outcome B) (l : list A) :
  (forall x, f x <> Js.Throws) -> Js.map f l <> Js.Throws.
Proof.
  intros Hf. induction l as [| x l IH]; cbn [Js.map]; [discriminate |].
  destruct (f x) as [y | |] eqn:Hx; cbn [Js.bind]; [| congruence | discriminate].
  destruct (Js.map f l); cbn [Js.bind]; congruence.
Qed.

Lemma flattenSenderAndReceiver_modelled (o : Js.object) :
  flattenSenderAndReceiver o <> Js.Unmodelled.
Proof.
  unfold flattenSenderAndReceiver, Js.member.
  destruct (Js.nullish (Js.getField o "sender")),
           (Js.nullish (Js.getField o "receiver")); cbn [Js.bind]; discriminate.
Qed.

Lemma flattenStartEndEventTransactions_modelled (o : Js.object) :
  flattenStartEndEventTransactions o <> Js.Unmodelled.
Proof.
  unfold flattenStartEndEventTransactions, Js.member.
  destruct (Js.nullish (Js.getField o "startedAtEvent")); cbn [Js.bind]; [discriminate |].
  destruct (Js.truthy (Js.getField o "stoppedAtEvent")) eqn:Ht; cbn [Js.bind];
    [rewrite (truthy_not_nullish _ Ht); cbn [Js.bind] |]; discriminate.
Qed.

Lemma withDailyAmounts_no_Throws (startTimestamp endTimestamp : Z) (o : Js.object) :
  withDailyAmounts startTimestamp endTimestamp o <> Js.Throws.
Proof. unfold withDailyAmounts. destruct (streamPeriodOf o); discriminate. Qed.

Lemma flattenSenderAndReceiver_getField (o a : Js.object) (k : String.string) :
  flattenSenderAndReceiver o = Js.Returns a ->
  k <> "sender"%string -> k <> "receiver"%string ->
  Js.getField a k = Js.getField o k.
Proof.
  intros H Hs Hr. apply flattenSenderAndReceiver_Returns in H. destruct H as (_ & _ & ->).
  rewrite !getField_setField_ne by congruence. reflexivity.
Qed.

Lemma flattenStartEndEventTransactions_getField (a b : Js.object) (k : String.string) :
  flattenStartEndEventTransactions a = Js.Returns b ->
  k <> "startedAtEvent"%string -> k <> "stoppedAtEvent"%string ->
  k <> "streamOpeningTxHash"%string -> k <> "streamClosingTxHash"%string ->
  Js.getField b k = Js.getField a k.
Proof.
  intros H H1 H2 H3 H4. apply flattenStartEndEventTransactions_Returns in H.
  destruct H as (_ & ->).
  rewrite !getField_removeField_ne by congruence.
  rewrite !getField_setField_ne by congruence. reflexivity.
Qed.

Lemma streamPeriodOf_flattened (o a b : Js.object) :
  flattenSenderAndReceiver o = Js.Returns a ->
  flattenStartEndEventTransactions a = Js.Returns b ->
  streamPeriodOf b = streamPeriodOf o.
Proof.
  intros Ha Hb. unfold streamPeriodOf.
  rewrite !(flattenStartEndEventTransactions_getField a b _ Hb) by key_ne.
  rewrite !(flattenSenderAndReceiver_getField o a _ Ha) by key_ne.
  reflexivity.
Qed.

Lemma accountingItem_chain (startTimestamp endTimestamp : Z) (o a b item : Js.object) :
  flattenSenderAndReceiver o = Js.Returns a ->
  flattenStartEndEventTransactions a = Js.Returns b ->
  withDailyAmounts startTimestamp endTimestamp b = Js.Returns item ->
  accountingItemOf startTimestamp endTimestamp o item.
Proof.
  intros Ha Hb Hitem.
  pose proof (streamPeriodOf_flattened o a b Ha Hb) as Hp.
  pose proof (fun k => flattenSenderAndReceiver_getField o a k Ha) as Hga.
  apply flattenSenderAndReceiver_Returns in Ha. destruct Ha as (_ & _ & Ha).
  apply flattenStartEndEventTransactions_Returns in Hb. destruct Hb as (_ & Hb).
  unfold withDailyAmounts in Hitem. rewrite Hp in Hitem.
  destruct (streamPeriodOf o) as [p |] eqn:Hpo; [| discriminate].
  injection Hitem as <-.
  unfold accountingItemOf.
  rewrite !(getField_setField_ne "dailyAmounts") by key_ne.
  rewrite !(lookup_setField_ne "dailyAmounts") by key_ne.
  rewrite getField_setField_eq.
  rewrite Hb.
  rewrite !getField_removeField_ne by key_ne.
  rewrite !(getField_setField_ne "streamClosingTxHash") by key_ne.
  rewrite !(getField_setField_ne "streamOpeningTxHash") by key_ne.
  rewrite !getField_setField_eq.
  rewrite (lookup_removeField_ne "stoppedAtEvent" "startedAtEvent") by key_ne.
  rewrite !lookup_removeField_eq.
  rewrite !(Hga "startedAtEvent"%string) by key_ne.
  rewrite !(Hga "stoppedAtEvent"%string) by key_ne.
  rewrite Ha.
  rewrite (getField_setField_ne "receiver" "sender") by key_ne.
  rewrite !getField_setField_eq.
  repeat split.
  - exists p. split; [exact Hpo | reflexivity].
  - intros k Hk. unfold mappedKeys in Hk. cbn [In] in Hk.
    rewrite lookup_setField_ne by (intros Heq; apply Hk; rewrite <- Heq; auto 10).
    rewrite !lookup_removeField_ne by (intros Heq; apply Hk; rewrite <- Heq; auto 10).
    rewrite !lookup_setField_ne by (intros Heq; apply Hk; rewrite <- Heq; auto 10).
    reflexivity.
Qed.

Lemma Forall2_Exists_l {A B : Type} (R : A -> B -> Prop) (P : A -> Prop) (Q : B -> Prop)
    (l : list A) (l' : list B) :
  Forall2 R l l' -> (forall x y, R x y -> (Q y <-> P x)) -> (Exists Q l' <-> Exists P l).
Proof.
  intros H HR. induction H as [| x y l l' Hxy Hrest IH].
  - split; intros Hex; inversion Hex.
  - split; intros Hex; inversion Hex as [? ? Hh | ? ? Ht]; subst.
    + left. apply (HR x y Hxy). exact Hh.
    + right. apply IH. exact Ht.
    + left. apply (HR x y Hxy). exact Hh.
    + right. apply IH. exact Ht.
Qed.

(** X15: [getPeriodsWithDailyAmounts] throws exactly when one of the stream
    periods of the answer, in any of its four lists, has no sender, no
    receiver or no started event ([undefined] or [null]); one such period
    makes the whole call fail. *)
Theorem getPeriodsWithDailyAmounts_throws (data : StreamPeriodsData)
    (startTimestamp endTimestamp : Z) :
  getPeriodsWithDailyAmounts data startTimestamp endTimestamp = Js.Throws <->
  Exists (fun o => malformed o = true) (streamPeriodsOf data).
Proof.
  unfold getPeriodsWithDailyAmounts. fold (streamPeriodsOf data).
  set (l := streamPeriodsOf data).
  destruct (map_Throws flattenSenderAndReceiver l flattenSenderAndReceiver_modelled)
    as [Hthrows1 Hmod1].
  assert (Hbad : forall o, malformed o = true <->
                 (flattenSenderAndReceiver o = Js.Throws \/
                  Js.nullish (Js.getField o "startedAtEvent") = true)).
  { intros o. unfold malformed.
    rewrite !orb_true_iff.
    unfold flattenSenderAndReceiver, Js.member.
    destruct (Js.nullish (Js.getField o "sender")),
             (Js.nullish (Js.getField o "receiver")); cbn [Js.bind];
      intuition discriminate. }
  destruct (Js.map flattenSenderAndReceiver l) as [flat | |] eqn:H1; cbn [Js.bind].
  - apply map_Returns in H1.
    destruct (map_Throws flattenStartEndEventTransactions flat
                flattenStartEndEventTransactions_modelled) as [Hthrows2 Hmod2].
    assert (Hnone : ~ Exists (fun o => flattenSenderAndReceiver o = Js.Throws) l).
    { intros Hex. apply Hthrows1 in Hex. discriminate. }
    assert (Hsecond : Exists (fun a => flattenStartEndEventTransactions a = Js.Throws) flat <->
                      Exists (fun o => Js.nullish (Js.getField o "startedAtEvent") = true) l).
    { apply (Forall2_Exists_l _ _ _ _ _ H1). intros o a Ha.
      rewrite (flattenStartEndEventTransactions_throws_iff a).
      rewrite (flattenSenderAndReceiver_getField o a _ Ha) by key_ne. reflexivity. }
    destruct (Js.map flattenStartEndEventTransactions flat) as [flatter | |] eqn:H2;
      cbn [Js.bind].
    + split.
      * intros H3. exfalso.
        exact (map_no_Throws _ flatter (withDailyAmounts_no_Throws _ _) H3).
      * intros Hex. exfalso. apply Exists_exists in Hex. destruct Hex as (o & Hin & Ho).
        apply Hbad in Ho. destruct Ho as [Ho | Ho].
        -- apply Hnone. apply Exists_exists. eauto.
        -- assert (Hex2 : Exists (fun o => Js.nullish (Js.getField o "startedAtEvent") = true) l)
             by (apply Exists_exists; eauto).
           apply Hsecond, Hthrows2 in Hex2. discriminate.
    + split; [| reflexivity]. intros _.
      assert (Hex2 : Exists (fun a => flattenStartEndEventTransactions a = Js.Throws) flat)
        by (apply Hthrows2; reflexivity).
      apply Hsecond in Hex2. apply Exists_exists in Hex2. destruct Hex2 as (o & Hin & Ho).
      apply Exists_exists. exists o. split; [exact Hin |]. apply Hbad. right. exact Ho.
    + congruence.
  - split; [| reflexivity]. intros _.
    assert (Hex : Exists (fun o => flattenSenderAndReceiver o = Js.Throws) l)
      by (apply Hthrows1; reflexivity).
    apply Exists_exists in Hex. destruct Hex as (o & Hin & Ho).
    apply Exists_exists. exists o. split; [exact Hin |]. apply Hbad. left. exact Ho.
  - congruence.
Qed.

Lemma Forall2_chain {A B C D : Type} (R1 : A -> B -> Prop) (R2 : B -> C -> Prop)
    (R3 : C -> D -> Prop) (R : A -> D -> Prop) :
  (forall a b c d, R1 a b -> R2 b c -> R3 c d -> R a d) ->
  forall l1 l2 l3 l4,
    Forall2 R1 l1 l2 -> Forall2 R2 l2 l3 -> Forall2 R3 l3 l4 -> Forall2 R l1 l4.
Proof.
  intros HR l1 l2 l3 l4 H1. revert l3 l4.
  induction H1 as [| a b l1 l2 Hab H1 IH]; intros l3 l4 H2 H3.
  - inversion H2; subst. inversion H3; subst. constructor.
  - inversion H2 as [| ? c ? l3' Hbc H2']; subst.
    inversion H3 as [| ? d ? l4' Hcd H3']; subst.
    constructor; [exact (HR a b c d Hab Hbc Hcd) | exact (IH _ _ H2' H3')].
Qed.

Lemma getPeriodsWithDailyAmounts_Returns (data : StreamPeriodsData)
    (startTimestamp endTimestamp : Z) (items : list Js.object) :
  getPeriodsWithDailyAmounts data startTimestamp endTimestamp = Js.Returns items <->
  exists flat flatter,
    Forall2 (fun o a => flattenSenderAndReceiver o = Js.Returns a) (streamPeriodsOf data) flat /\
    Forall2 (fun a b => flattenStartEndEventTransactions a = Js.Returns b) flat flatter /\
    Forall2 (fun b item => withDailyAmounts startTimestamp endTimestamp b = Js.Returns item)
            flatter items.
Proof.
  unfold getPeriodsWithDailyAmounts. fold (streamPeriodsOf data). split.
  - intros H.
    destruct (Js.map flattenSenderAndReceiver (streamPeriodsOf data)) as [flat | |] eqn:H1;
      cbn [Js.bind] in H; try discriminate.
    destruct (Js.map flattenStartEndEventTransactions flat) as [flatter | |] eqn:H2;
      cbn [Js.bind] in H; try discriminate.
    exists flat, flatter. rewrite <- !map_Returns. auto.
  - intros (flat & flatter & H1 & H2 & H3).
    apply map_Returns in H1, H2, H3. rewrite H1. cbn [Js.bind]. rewrite H2. exact H3.
Qed.

(** X16: when [getPeriodsWithDailyAmounts] returns, it returns one item for
    each stream period of the answer, in the order inflowing, outflowing,
    inflowing active, outflowing active.  The item of a period has the ids of
    its sender and receiver, the transaction hashes of its events in place of
    the events, its daily amounts for the window as [getDailyAmounts] gives
    them from the timestamps and the flow rate of the period, and every other
    property of the period as it was. *)
Theorem getPeriodsWithDailyAmounts_returns (data : StreamPeriodsData)
    (startTimestamp endTimestamp : Z) (items : list Js.object) :
  getPeriodsWithDailyAmounts data startTimestamp endTimestamp = Js.Returns items ->
  Forall2 (accountingItemOf startTimestamp endTimestamp) (streamPeriodsOf data) items.
Proof.
  intros H. apply getPeriodsWithDailyAmounts_Returns in H.
  destruct H as (flat & flatter & H1 & H2 & H3).
  refine (Forall2_chain _ _ _ _ _ _ _ _ _ H1 H2 H3).
  intros o a b item. apply accountingItem_chain.
Qed.

Lemma getPeriodsWithDailyAmounts_returns_witness :
  getPeriodsWithDailyAmounts sampleData 0 1672725600 = Js.Returns sampleItems /\
  Forall2 (accountingItemOf 0 1672725600) (streamPeriodsOf sampleData) sampleItems.
Proof.
  split; [vm_compute; reflexivity |].
  apply (getPeriodsWithDailyAmounts_returns sampleData 0 1672725600 sampleItems).
  vm_compute. reflexivity.
Defined.



Lemma getPeriodsWithDailyAmounts_throws_witness :
  Exists (fun o => malformed o = true)
         (streamPeriodsOf (mkStreamPeriodsData [sampleStreamPeriod] []
                             [Js.removeField "receiver" sampleStreamPeriod] [])) /\
  getPeriodsWithDailyAmounts
    (mkStreamPeriodsData [sampleStreamPeriod] []
       [Js.removeField "receiver" sampleStreamPeriod] [])
    0 1672725600 = Js.Throws.
Proof.
  assert (H : Exists (fun o => malformed o = true)
                (streamPeriodsOf (mkStreamPeriodsData [sampleStreamPeriod] []
                                    [Js.removeField "receiver" sampleStreamPeriod] [])))
    by (right; left; reflexivity).
  split; [exact H |].
  exact (proj2 (getPeriodsWithDailyAmounts_throws _ 0 1672725600) H).
Defined.

